(** * Voice recorder: session, store and playback slot of [App.js]

    A shallow embedding of the state-handling code of
    [src/voice_recorder_frontend/src/App.js]: the helpers
    [pickBestAudioMime] and [formatDuration], the recording handlers
    [startRecording], [stopRecording], [recorder.onstop] and
    [measureBlobDuration], and the playback handlers [onPlay], [onDelete]
    with the listeners [onPlay] installs on the audio element.

    Conventions.
    - React state cells ([useState]) and refs ([useRef]) are the fields of
      one record [State]; a handler is a function [State -> State] that runs
      to completion on the committed state (handlers are re-created on every
      state change through their [useCallback] dependency lists).
    - The browser is a black box.  What it answers during one handler call
      (does the constructor throw, which object URL is minted, what the
      clock reads) is an explicit argument of the handler; what the handler
      asks of it is appended, in program order, to the field [trace].
    - JavaScript numbers are modelled as exact rationals extended with the
      two infinities and NaN; rounding of IEEE doubles and the sign of zero
      are not modelled. *)

From stdpp Require Import base list.
From Stdlib Require Import ZArith QArith Qround Bool List String Ascii.
From Stdlib Require Import DecimalString Lia Lqa.
From Stdlib Require DecimalPos DecimalZ.
Import ListNotations.

Open Scope string_scope.

(* ================================================================== *)
(** ** JavaScript numbers *)

Inductive JsNum : Type :=
| Fin (q : Q)
| PosInf
| NegInf
| NaN.

(** [isFinite(x)], returning the finite value when there is one. *)
Definition finite_value (x : JsNum) : option Q :=
  match x with
  | Fin q => Some q
  | _ => None
  end.

Definition isFinite (x : JsNum) : bool :=
  match finite_value x with Some _ => true | None => false end.

Definition Qeqb0 (q : Q) : bool := Z.eqb (Qnum q) 0.

(** Truthiness of a number in a condition: [0] and [NaN] are falsy. *)
Definition truthy (x : JsNum) : bool :=
  match x with
  | Fin q => negb (Qeqb0 q)
  | PosInf | NegInf => true
  | NaN => false
  end.

Definition Qsign (q : Q) : Z := Z.sgn (Qnum q).

Definition inf_of_sign (z : Z) : JsNum :=
  match z with
  | Z0 => NaN
  | Zpos _ => PosInf
  | Zneg _ => NegInf
  end.

Definition sign_of (x : JsNum) : Z :=
  match x with
  | Fin q => Qsign q
  | PosInf => 1
  | NegInf => -1
  | NaN => 0
  end%Z.

(** [x / y] *)
Definition js_div (x y : JsNum) : JsNum :=
  match x, y with
  | NaN, _ | _, NaN => NaN
  | Fin a, Fin b =>
      if Qeqb0 b then inf_of_sign (Qsign a) else Fin (a / b)
  | Fin _, (PosInf | NegInf) => Fin 0
  | (PosInf | NegInf), Fin b =>
      if Qeqb0 b then x else inf_of_sign (sign_of x * Qsign b)
  | (PosInf | NegInf), (PosInf | NegInf) => NaN
  end.

(** [x * y] *)
Definition js_mul (x y : JsNum) : JsNum :=
  match x, y with
  | NaN, _ | _, NaN => NaN
  | Fin a, Fin b => Fin (a * b)
  | _, _ => inf_of_sign (sign_of x * sign_of y)
  end.




(** [Math.round(q)] for a finite [q]: the nearest integer, halves upwards. *)
Definition Math_round (q : Q) : Z := Qfloor (q + (1 # 2)).

(** [n.toString()] and [`${n}`] for an integer-valued number. *)
Definition Number_toString (z : Z) : string :=
  NilZero.string_of_int (Z.to_int z).

Fixpoint repeat_char (c : ascii) (n : nat) : string :=
  match n with
  | O => EmptyString
  | S k => String c (repeat_char c k)
  end.

(** [s.padStart(target, c)] with a filler of one character. *)
Definition padStart (target : nat) (c : ascii) (s : string) : string :=
  repeat_char c (target - String.length s) ++ s.

(** An integer literal, as a number. *)
Definition num (z : Z) : JsNum := Fin (inject_Z z).


(* ================================================================== *)
(** ** [formatDuration] *)

Definition formatDuration (sec : JsNum) : string :=
  match finite_value sec with
  | None => "0:00"
  | Some q =>
      let total := Math_round q in
      let m := (total / 60)%Z in          (* Math.floor(total / 60) *)
      let s := Z.rem total 60 in          (* total % 60 *)
      Number_toString m ++ ":" ++ padStart 2 "0" (Number_toString s)
  end.

(** The decimal digit [d], [0 <= d <= 9], as a character. *)
Definition digit_char (d : Z) : ascii := ascii_of_nat (48 + Z.to_nat d).

(** A value below one hundred written with exactly two digits. *)
Definition two_digits (s : Z) : string :=
  String (digit_char (s / 10)) (String (digit_char (s mod 10)) EmptyString).

(* ================================================================== *)
(** ** Data model *)

(** A chunk handed over by the encoder; its size is its length. *)
Definition Chunk : Type := string.

Record Blob : Type := mkBlob {
  blob_parts : list Chunk;
  blob_type : string;
}.

(** An entry of the [recordings] list:
    [{ id, url, blob, name, duration, createdAt }]. *)
Module Recording.
Record t : Type := mk {
  id : string;
  url : string;
  blob : Blob;
  name : string;
  duration : JsNum;
  createdAt : string;
}.
End Recording.

(** The part of an [HTMLAudioElement] the handlers read or write. *)
Module Audio.
Record t : Type := mk {
  src : string;
  paused : bool;
  currentTime : JsNum;
  duration : JsNum;
}.
End Audio.

Inductive Permission : Type := prompt | granted | denied.

Inductive MediaStream : Type := Stream (n : nat).

Inductive RecorderState : Type := inactive | recording.

Record MediaRecorder : Type := mkRecorder {
  state : RecorderState;
  options_mimeType : option string;
}.

Inductive AudioContext : Type := Ctx.

Record Analyser : Type := mkAnalyser { fftSize : nat }.

(** [analyser.frequencyBinCount] *)
Definition frequencyBinCount (a : Analyser) : nat := fftSize a / 2.

Inductive SourceNode : Type :=
| StreamSource (st : MediaStream)
| ElementSource (el : nat).

(** What a handler asks of the browser, in program order. *)
Inductive Effect : Type :=
| EGetUserMedia
| ENewMediaRecorder (mimeType : option string)
| ERecorderStart (timeslice : Z)
| ERecorderStop
| ETrackStop (st : MediaStream)
| ENewAudioContext
| EContextResume
| ECreateSource (n : SourceNode)
| ENodeDisconnect (n : SourceNode)
| ERequestAnimationFrame (h : positive)
| ECancelAnimationFrame (h : positive)
| ENewBlob (b : Blob)
| ECreateObjectURL (u : string)
| ERevokeObjectURL (u : string)
| ENewAudio (el : nat) (u : string)
| EAudioPause (el : nat)
| EAudioSeek (el : nat) (t : JsNum)
| EAudioPlay (el : nat).

(** The browser globals the helpers probe:
    [window.MediaRecorder] (with its optional static [isTypeSupported]) and
    [navigator.mediaDevices.getUserMedia].  A property of [window] is taken
    to be present exactly when its value is defined. *)
Record RecorderCtor : Type := mkCtor {
  isTypeSupported : option (string -> bool);
}.

Record Platform : Type := mkPlatform {
  window_MediaRecorder : option RecorderCtor;
  mediaDevices_getUserMedia : bool;
}.

(** The component's state cells and refs.  [mimeType] is the [useMemo] cell
    filled once when the component is constructed; [audios] holds every
    audio element constructed so far ([playbackAudioRef] is an index into
    it), and [trace] the requests made to the browser. *)
Record State : Type := mkState {
  permission : Permission;
  isRecording : bool;
  recordings : list Recording.t;
  error : string;
  activeId : option string;
  isPlaying : bool;
  playProgress : JsNum;
  mimeType : string;
  mediaRecorderRef : option MediaRecorder;
  mediaStreamRef : option MediaStream;
  recordedChunksRef : list Chunk;
  audioContextRef : option AudioContext;
  analyserRef : option Analyser;
  dataArrayRef : option nat;
  sourceNodeRef : option SourceNode;
  rafIdRef : option positive;
  playbackAudioRef : option nat;
  playbackSourceRef : option SourceNode;
  playbackAnalyserRef : option Analyser;
  playbackDataArrayRef : option nat;
  playbackRafIdRef : option positive;
  audios : list Audio.t;
  trace : list Effect;
}.

Definition setPermission (v : Permission) (s : State) : State :=
  {| permission := v;
     isRecording := isRecording s;
     recordings := recordings s;
     error := error s;
     activeId := activeId s;
     isPlaying := isPlaying s;
     playProgress := playProgress s;
     mimeType := mimeType s;
     mediaRecorderRef := mediaRecorderRef s;
     mediaStreamRef := mediaStreamRef s;
     recordedChunksRef := recordedChunksRef s;
     audioContextRef := audioContextRef s;
     analyserRef := analyserRef s;
     dataArrayRef := dataArrayRef s;
     sourceNodeRef := sourceNodeRef s;
     rafIdRef := rafIdRef s;
     playbackAudioRef := playbackAudioRef s;
     playbackSourceRef := playbackSourceRef s;
     playbackAnalyserRef := playbackAnalyserRef s;
     playbackDataArrayRef := playbackDataArrayRef s;
     playbackRafIdRef := playbackRafIdRef s;
     audios := audios s;
     trace := trace s |}.

Definition setIsRecording (v : bool) (s : State) : State :=
  {| permission := permission s;
     isRecording := v;
     recordings := recordings s;
     error := error s;
     activeId := activeId s;
     isPlaying := isPlaying s;
     playProgress := playProgress s;
     mimeType := mimeType s;
     mediaRecorderRef := mediaRecorderRef s;
     mediaStreamRef := mediaStreamRef s;
     recordedChunksRef := recordedChunksRef s;
     audioContextRef := audioContextRef s;
     analyserRef := analyserRef s;
     dataArrayRef := dataArrayRef s;
     sourceNodeRef := sourceNodeRef s;
     rafIdRef := rafIdRef s;
     playbackAudioRef := playbackAudioRef s;
     playbackSourceRef := playbackSourceRef s;
     playbackAnalyserRef := playbackAnalyserRef s;
     playbackDataArrayRef := playbackDataArrayRef s;
     playbackRafIdRef := playbackRafIdRef s;
     audios := audios s;
     trace := trace s |}.

Definition setRecordings (v : list Recording.t) (s : State) : State :=
  {| permission := permission s;
     isRecording := isRecording s;
     recordings := v;
     error := error s;
     activeId := activeId s;
     isPlaying := isPlaying s;
     playProgress := playProgress s;
     mimeType := mimeType s;
     mediaRecorderRef := mediaRecorderRef s;
     mediaStreamRef := mediaStreamRef s;
     recordedChunksRef := recordedChunksRef s;
     audioContextRef := audioContextRef s;
     analyserRef := analyserRef s;
     dataArrayRef := dataArrayRef s;
     sourceNodeRef := sourceNodeRef s;
     rafIdRef := rafIdRef s;
     playbackAudioRef := playbackAudioRef s;
     playbackSourceRef := playbackSourceRef s;
     playbackAnalyserRef := playbackAnalyserRef s;
     playbackDataArrayRef := playbackDataArrayRef s;
     playbackRafIdRef := playbackRafIdRef s;
     audios := audios s;
     trace := trace s |}.

Definition setError (v : string) (s : State) : State :=
  {| permission := permission s;
     isRecording := isRecording s;
     recordings := recordings s;
     error := v;
     activeId := activeId s;
     isPlaying := isPlaying s;
     playProgress := playProgress s;
     mimeType := mimeType s;
     mediaRecorderRef := mediaRecorderRef s;
     mediaStreamRef := mediaStreamRef s;
     recordedChunksRef := recordedChunksRef s;
     audioContextRef := audioContextRef s;
     analyserRef := analyserRef s;
     dataArrayRef := dataArrayRef s;
     sourceNodeRef := sourceNodeRef s;
     rafIdRef := rafIdRef s;
     playbackAudioRef := playbackAudioRef s;
     playbackSourceRef := playbackSourceRef s;
     playbackAnalyserRef := playbackAnalyserRef s;
     playbackDataArrayRef := playbackDataArrayRef s;
     playbackRafIdRef := playbackRafIdRef s;
     audios := audios s;
     trace := trace s |}.

Definition setActiveId (v : option string) (s : State) : State :=
  {| permission := permission s;
     isRecording := isRecording s;
     recordings := recordings s;
     error := error s;
     activeId := v;
     isPlaying := isPlaying s;
     playProgress := playProgress s;
     mimeType := mimeType s;
     mediaRecorderRef := mediaRecorderRef s;
     mediaStreamRef := mediaStreamRef s;
     recordedChunksRef := recordedChunksRef s;
     audioContextRef := audioContextRef s;
     analyserRef := analyserRef s;
     dataArrayRef := dataArrayRef s;
     sourceNodeRef := sourceNodeRef s;
     rafIdRef := rafIdRef s;
     playbackAudioRef := playbackAudioRef s;
     playbackSourceRef := playbackSourceRef s;
     playbackAnalyserRef := playbackAnalyserRef s;
     playbackDataArrayRef := playbackDataArrayRef s;
     playbackRafIdRef := playbackRafIdRef s;
     audios := audios s;
     trace := trace s |}.

Definition setIsPlaying (v : bool) (s : State) : State :=
  {| permission := permission s;
     isRecording := isRecording s;
     recordings := recordings s;
     error := error s;
     activeId := activeId s;
     isPlaying := v;
     playProgress := playProgress s;
     mimeType := mimeType s;
     mediaRecorderRef := mediaRecorderRef s;
     mediaStreamRef := mediaStreamRef s;
     recordedChunksRef := recordedChunksRef s;
     audioContextRef := audioContextRef s;
     analyserRef := analyserRef s;
     dataArrayRef := dataArrayRef s;
     sourceNodeRef := sourceNodeRef s;
     rafIdRef := rafIdRef s;
     playbackAudioRef := playbackAudioRef s;
     playbackSourceRef := playbackSourceRef s;
     playbackAnalyserRef := playbackAnalyserRef s;
     playbackDataArrayRef := playbackDataArrayRef s;
     playbackRafIdRef := playbackRafIdRef s;
     audios := audios s;
     trace := trace s |}.

Definition setPlayProgress (v : JsNum) (s : State) : State :=
  {| permission := permission s;
     isRecording := isRecording s;
     recordings := recordings s;
     error := error s;
     activeId := activeId s;
     isPlaying := isPlaying s;
     playProgress := v;
     mimeType := mimeType s;
     mediaRecorderRef := mediaRecorderRef s;
     mediaStreamRef := mediaStreamRef s;
     recordedChunksRef := recordedChunksRef s;
     audioContextRef := audioContextRef s;
     analyserRef := analyserRef s;
     dataArrayRef := dataArrayRef s;
     sourceNodeRef := sourceNodeRef s;
     rafIdRef := rafIdRef s;
     playbackAudioRef := playbackAudioRef s;
     playbackSourceRef := playbackSourceRef s;
     playbackAnalyserRef := playbackAnalyserRef s;
     playbackDataArrayRef := playbackDataArrayRef s;
     playbackRafIdRef := playbackRafIdRef s;
     audios := audios s;
     trace := trace s |}.

Definition set_mediaRecorderRef (v : option MediaRecorder) (s : State) : State :=
  {| permission := permission s;
     isRecording := isRecording s;
     recordings := recordings s;
     error := error s;
     activeId := activeId s;
     isPlaying := isPlaying s;
     playProgress := playProgress s;
     mimeType := mimeType s;
     mediaRecorderRef := v;
     mediaStreamRef := mediaStreamRef s;
     recordedChunksRef := recordedChunksRef s;
     audioContextRef := audioContextRef s;
     analyserRef := analyserRef s;
     dataArrayRef := dataArrayRef s;
     sourceNodeRef := sourceNodeRef s;
     rafIdRef := rafIdRef s;
     playbackAudioRef := playbackAudioRef s;
     playbackSourceRef := playbackSourceRef s;
     playbackAnalyserRef := playbackAnalyserRef s;
     playbackDataArrayRef := playbackDataArrayRef s;
     playbackRafIdRef := playbackRafIdRef s;
     audios := audios s;
     trace := trace s |}.

Definition set_mediaStreamRef (v : option MediaStream) (s : State) : State :=
  {| permission := permission s;
     isRecording := isRecording s;
     recordings := recordings s;
     error := error s;
     activeId := activeId s;
     isPlaying := isPlaying s;
     playProgress := playProgress s;
     mimeType := mimeType s;
     mediaRecorderRef := mediaRecorderRef s;
     mediaStreamRef := v;
     recordedChunksRef := recordedChunksRef s;
     audioContextRef := audioContextRef s;
     analyserRef := analyserRef s;
     dataArrayRef := dataArrayRef s;
     sourceNodeRef := sourceNodeRef s;
     rafIdRef := rafIdRef s;
     playbackAudioRef := playbackAudioRef s;
     playbackSourceRef := playbackSourceRef s;
     playbackAnalyserRef := playbackAnalyserRef s;
     playbackDataArrayRef := playbackDataArrayRef s;
     playbackRafIdRef := playbackRafIdRef s;
     audios := audios s;
     trace := trace s |}.

Definition set_recordedChunksRef (v : list Chunk) (s : State) : State :=
  {| permission := permission s;
     isRecording := isRecording s;
     recordings := recordings s;
     error := error s;
     activeId := activeId s;
     isPlaying := isPlaying s;
     playProgress := playProgress s;
     mimeType := mimeType s;
     mediaRecorderRef := mediaRecorderRef s;
     mediaStreamRef := mediaStreamRef s;
     recordedChunksRef := v;
     audioContextRef := audioContextRef s;
     analyserRef := analyserRef s;
     dataArrayRef := dataArrayRef s;
     sourceNodeRef := sourceNodeRef s;
     rafIdRef := rafIdRef s;
     playbackAudioRef := playbackAudioRef s;
     playbackSourceRef := playbackSourceRef s;
     playbackAnalyserRef := playbackAnalyserRef s;
     playbackDataArrayRef := playbackDataArrayRef s;
     playbackRafIdRef := playbackRafIdRef s;
     audios := audios s;
     trace := trace s |}.

Definition set_audioContextRef (v : option AudioContext) (s : State) : State :=
  {| permission := permission s;
     isRecording := isRecording s;
     recordings := recordings s;
     error := error s;
     activeId := activeId s;
     isPlaying := isPlaying s;
     playProgress := playProgress s;
     mimeType := mimeType s;
     mediaRecorderRef := mediaRecorderRef s;
     mediaStreamRef := mediaStreamRef s;
     recordedChunksRef := recordedChunksRef s;
     audioContextRef := v;
     analyserRef := analyserRef s;
     dataArrayRef := dataArrayRef s;
     sourceNodeRef := sourceNodeRef s;
     rafIdRef := rafIdRef s;
     playbackAudioRef := playbackAudioRef s;
     playbackSourceRef := playbackSourceRef s;
     playbackAnalyserRef := playbackAnalyserRef s;
     playbackDataArrayRef := playbackDataArrayRef s;
     playbackRafIdRef := playbackRafIdRef s;
     audios := audios s;
     trace := trace s |}.

Definition set_analyserRef (v : option Analyser) (s : State) : State :=
  {| permission := permission s;
     isRecording := isRecording s;
     recordings := recordings s;
     error := error s;
     activeId := activeId s;
     isPlaying := isPlaying s;
     playProgress := playProgress s;
     mimeType := mimeType s;
     mediaRecorderRef := mediaRecorderRef s;
     mediaStreamRef := mediaStreamRef s;
     recordedChunksRef := recordedChunksRef s;
     audioContextRef := audioContextRef s;
     analyserRef := v;
     dataArrayRef := dataArrayRef s;
     sourceNodeRef := sourceNodeRef s;
     rafIdRef := rafIdRef s;
     playbackAudioRef := playbackAudioRef s;
     playbackSourceRef := playbackSourceRef s;
     playbackAnalyserRef := playbackAnalyserRef s;
     playbackDataArrayRef := playbackDataArrayRef s;
     playbackRafIdRef := playbackRafIdRef s;
     audios := audios s;
     trace := trace s |}.

Definition set_dataArrayRef (v : option nat) (s : State) : State :=
  {| permission := permission s;
     isRecording := isRecording s;
     recordings := recordings s;
     error := error s;
     activeId := activeId s;
     isPlaying := isPlaying s;
     playProgress := playProgress s;
     mimeType := mimeType s;
     mediaRecorderRef := mediaRecorderRef s;
     mediaStreamRef := mediaStreamRef s;
     recordedChunksRef := recordedChunksRef s;
     audioContextRef := audioContextRef s;
     analyserRef := analyserRef s;
     dataArrayRef := v;
     sourceNodeRef := sourceNodeRef s;
     rafIdRef := rafIdRef s;
     playbackAudioRef := playbackAudioRef s;
     playbackSourceRef := playbackSourceRef s;
     playbackAnalyserRef := playbackAnalyserRef s;
     playbackDataArrayRef := playbackDataArrayRef s;
     playbackRafIdRef := playbackRafIdRef s;
     audios := audios s;
     trace := trace s |}.

Definition set_sourceNodeRef (v : option SourceNode) (s : State) : State :=
  {| permission := permission s;
     isRecording := isRecording s;
     recordings := recordings s;
     error := error s;
     activeId := activeId s;
     isPlaying := isPlaying s;
     playProgress := playProgress s;
     mimeType := mimeType s;
     mediaRecorderRef := mediaRecorderRef s;
     mediaStreamRef := mediaStreamRef s;
     recordedChunksRef := recordedChunksRef s;
     audioContextRef := audioContextRef s;
     analyserRef := analyserRef s;
     dataArrayRef := dataArrayRef s;
     sourceNodeRef := v;
     rafIdRef := rafIdRef s;
     playbackAudioRef := playbackAudioRef s;
     playbackSourceRef := playbackSourceRef s;
     playbackAnalyserRef := playbackAnalyserRef s;
     playbackDataArrayRef := playbackDataArrayRef s;
     playbackRafIdRef := playbackRafIdRef s;
     audios := audios s;
     trace := trace s |}.

Definition set_rafIdRef (v : option positive) (s : State) : State :=
  {| permission := permission s;
     isRecording := isRecording s;
     recordings := recordings s;
     error := error s;
     activeId := activeId s;
     isPlaying := isPlaying s;
     playProgress := playProgress s;
     mimeType := mimeType s;
     mediaRecorderRef := mediaRecorderRef s;
     mediaStreamRef := mediaStreamRef s;
     recordedChunksRef := recordedChunksRef s;
     audioContextRef := audioContextRef s;
     analyserRef := analyserRef s;
     dataArrayRef := dataArrayRef s;
     sourceNodeRef := sourceNodeRef s;
     rafIdRef := v;
     playbackAudioRef := playbackAudioRef s;
     playbackSourceRef := playbackSourceRef s;
     playbackAnalyserRef := playbackAnalyserRef s;
     playbackDataArrayRef := playbackDataArrayRef s;
     playbackRafIdRef := playbackRafIdRef s;
     audios := audios s;
     trace := trace s |}.

Definition set_playbackAudioRef (v : option nat) (s : State) : State :=
  {| permission := permission s;
     isRecording := isRecording s;
     recordings := recordings s;
     error := error s;
     activeId := activeId s;
     isPlaying := isPlaying s;
     playProgress := playProgress s;
     mimeType := mimeType s;
     mediaRecorderRef := mediaRecorderRef s;
     mediaStreamRef := mediaStreamRef s;
     recordedChunksRef := recordedChunksRef s;
     audioContextRef := audioContextRef s;
     analyserRef := analyserRef s;
     dataArrayRef := dataArrayRef s;
     sourceNodeRef := sourceNodeRef s;
     rafIdRef := rafIdRef s;
     playbackAudioRef := v;
     playbackSourceRef := playbackSourceRef s;
     playbackAnalyserRef := playbackAnalyserRef s;
     playbackDataArrayRef := playbackDataArrayRef s;
     playbackRafIdRef := playbackRafIdRef s;
     audios := audios s;
     trace := trace s |}.

Definition set_playbackSourceRef (v : option SourceNode) (s : State) : State :=
  {| permission := permission s;
     isRecording := isRecording s;
     recordings := recordings s;
     error := error s;
     activeId := activeId s;
     isPlaying := isPlaying s;
     playProgress := playProgress s;
     mimeType := mimeType s;
     mediaRecorderRef := mediaRecorderRef s;
     mediaStreamRef := mediaStreamRef s;
     recordedChunksRef := recordedChunksRef s;
     audioContextRef := audioContextRef s;
     analyserRef := analyserRef s;
     dataArrayRef := dataArrayRef s;
     sourceNodeRef := sourceNodeRef s;
     rafIdRef := rafIdRef s;
     playbackAudioRef := playbackAudioRef s;
     playbackSourceRef := v;
     playbackAnalyserRef := playbackAnalyserRef s;
     playbackDataArrayRef := playbackDataArrayRef s;
     playbackRafIdRef := playbackRafIdRef s;
     audios := audios s;
     trace := trace s |}.

Definition set_playbackAnalyserRef (v : option Analyser) (s : State) : State :=
  {| permission := permission s;
     isRecording := isRecording s;
     recordings := recordings s;
     error := error s;
     activeId := activeId s;
     isPlaying := isPlaying s;
     playProgress := playProgress s;
     mimeType := mimeType s;
     mediaRecorderRef := mediaRecorderRef s;
     mediaStreamRef := mediaStreamRef s;
     recordedChunksRef := recordedChunksRef s;
     audioContextRef := audioContextRef s;
     analyserRef := analyserRef s;
     dataArrayRef := dataArrayRef s;
     sourceNodeRef := sourceNodeRef s;
     rafIdRef := rafIdRef s;
     playbackAudioRef := playbackAudioRef s;
     playbackSourceRef := playbackSourceRef s;
     playbackAnalyserRef := v;
     playbackDataArrayRef := playbackDataArrayRef s;
     playbackRafIdRef := playbackRafIdRef s;
     audios := audios s;
     trace := trace s |}.

Definition set_playbackDataArrayRef (v : option nat) (s : State) : State :=
  {| permission := permission s;
     isRecording := isRecording s;
     recordings := recordings s;
     error := error s;
     activeId := activeId s;
     isPlaying := isPlaying s;
     playProgress := playProgress s;
     mimeType := mimeType s;
     mediaRecorderRef := mediaRecorderRef s;
     mediaStreamRef := mediaStreamRef s;
     recordedChunksRef := recordedChunksRef s;
     audioContextRef := audioContextRef s;
     analyserRef := analyserRef s;
     dataArrayRef := dataArrayRef s;
     sourceNodeRef := sourceNodeRef s;
     rafIdRef := rafIdRef s;
     playbackAudioRef := playbackAudioRef s;
     playbackSourceRef := playbackSourceRef s;
     playbackAnalyserRef := playbackAnalyserRef s;
     playbackDataArrayRef := v;
     playbackRafIdRef := playbackRafIdRef s;
     audios := audios s;
     trace := trace s |}.

Definition set_playbackRafIdRef (v : option positive) (s : State) : State :=
  {| permission := permission s;
     isRecording := isRecording s;
     recordings := recordings s;
     error := error s;
     activeId := activeId s;
     isPlaying := isPlaying s;
     playProgress := playProgress s;
     mimeType := mimeType s;
     mediaRecorderRef := mediaRecorderRef s;
     mediaStreamRef := mediaStreamRef s;
     recordedChunksRef := recordedChunksRef s;
     audioContextRef := audioContextRef s;
     analyserRef := analyserRef s;
     dataArrayRef := dataArrayRef s;
     sourceNodeRef := sourceNodeRef s;
     rafIdRef := rafIdRef s;
     playbackAudioRef := playbackAudioRef s;
     playbackSourceRef := playbackSourceRef s;
     playbackAnalyserRef := playbackAnalyserRef s;
     playbackDataArrayRef := playbackDataArrayRef s;
     playbackRafIdRef := v;
     audios := audios s;
     trace := trace s |}.

Definition set_audios (v : list Audio.t) (s : State) : State :=
  {| permission := permission s;
     isRecording := isRecording s;
     recordings := recordings s;
     error := error s;
     activeId := activeId s;
     isPlaying := isPlaying s;
     playProgress := playProgress s;
     mimeType := mimeType s;
     mediaRecorderRef := mediaRecorderRef s;
     mediaStreamRef := mediaStreamRef s;
     recordedChunksRef := recordedChunksRef s;
     audioContextRef := audioContextRef s;
     analyserRef := analyserRef s;
     dataArrayRef := dataArrayRef s;
     sourceNodeRef := sourceNodeRef s;
     rafIdRef := rafIdRef s;
     playbackAudioRef := playbackAudioRef s;
     playbackSourceRef := playbackSourceRef s;
     playbackAnalyserRef := playbackAnalyserRef s;
     playbackDataArrayRef := playbackDataArrayRef s;
     playbackRafIdRef := playbackRafIdRef s;
     audios := v;
     trace := trace s |}.

Definition set_trace (v : list Effect) (s : State) : State :=
  {| permission := permission s;
     isRecording := isRecording s;
     recordings := recordings s;
     error := error s;
     activeId := activeId s;
     isPlaying := isPlaying s;
     playProgress := playProgress s;
     mimeType := mimeType s;
     mediaRecorderRef := mediaRecorderRef s;
     mediaStreamRef := mediaStreamRef s;
     recordedChunksRef := recordedChunksRef s;
     audioContextRef := audioContextRef s;
     analyserRef := analyserRef s;
     dataArrayRef := dataArrayRef s;
     sourceNodeRef := sourceNodeRef s;
     rafIdRef := rafIdRef s;
     playbackAudioRef := playbackAudioRef s;
     playbackSourceRef := playbackSourceRef s;
     playbackAnalyserRef := playbackAnalyserRef s;
     playbackDataArrayRef := playbackDataArrayRef s;
     playbackRafIdRef := playbackRafIdRef s;
     audios := audios s;
     trace := v |}.

(* ================================================================== *)
(** ** Helpers *)

Definition log (e : Effect) (s : State) : State :=
  set_trace (trace s ++ [e])%list s.

(** Truthiness of a string in a condition: only [''] is falsy. *)
Definition nonempty (x : string) : bool :=
  match x with
  | EmptyString => false
  | String _ _ => true
  end.

Definition supportsMediaRecorder (w : Platform) : bool :=
  match window_MediaRecorder w with
  | Some _ => true
  | None => false
  end.

Definition supportsGetUserMedia (w : Platform) : bool :=
  mediaDevices_getUserMedia w.

Definition candidates : list string :=
  [ "audio/webm;codecs=opus"; "audio/webm"; "audio/mp4";
    "audio/ogg;codecs=opus"; "audio/ogg"; "audio/wav" ].

(** [MediaRecorderCtor.isTypeSupported && MediaRecorderCtor.isTypeSupported(type)] *)
Definition type_supported (ctor : RecorderCtor) (type : string) : bool :=
  match isTypeSupported ctor with
  | Some f => f type
  | None => false
  end.

(** The [for (const type of candidates)] loop with its final [return '']. *)
Fixpoint first_supported (ctor : RecorderCtor) (types : list string) : string :=
  match types with
  | [] => ""
  | type :: rest =>
      if type_supported ctor type then type else first_supported ctor rest
  end.

Definition pickBestAudioMime (w : Platform) : string :=
  match window_MediaRecorder w with
  | None => ""
  | Some ctor => first_supported ctor candidates
  end.

(** [const canRecord = supportsMediaRecorder() && supportsGetUserMedia()] *)
Definition canRecord (w : Platform) : bool :=
  supportsMediaRecorder w && supportsGetUserMedia w.

(** The state of a freshly constructed component on platform [w]; the
    [useMemo] cell is
    [supportsMediaRecorder() ? pickBestAudioMime() : '']. *)
Definition App (w : Platform) : State :=
  {| permission := prompt;
     isRecording := false;
     recordings := [];
     error := "";
     activeId := None;
     isPlaying := false;
     playProgress := num 0;
     mimeType := if supportsMediaRecorder w then pickBestAudioMime w else "";
     mediaRecorderRef := None;
     mediaStreamRef := None;
     recordedChunksRef := [];
     audioContextRef := None;
     analyserRef := None;
     dataArrayRef := None;
     sourceNodeRef := None;
     rafIdRef := None;
     playbackAudioRef := None;
     playbackSourceRef := None;
     playbackAnalyserRef := None;
     playbackDataArrayRef := None;
     playbackRafIdRef := None;
     audios := [];
     trace := [] |}.

Definition ensureAudioContext (s : State) : State :=
  match audioContextRef s with
  | Some _ => s
  | None => set_audioContextRef (Some Ctx) (log ENewAudioContext s)
  end.

(** [drawWaveform] schedules its first frame and stores the handle [h] the
    browser returns; painting the canvas is outside the model. *)
Definition drawWaveform (isRecordingPhase : bool) (h : positive) (s : State)
  : State :=
  let s := log (ERequestAnimationFrame h) s in
  if isRecordingPhase then set_rafIdRef (Some h) s
  else set_playbackRafIdRef (Some h) s.

(** One run of the [draw] closure: it repaints and schedules itself again.
    The browser only runs a callback that has not been cancelled. *)
Definition draw (isRecordingPhase : bool) (h : positive) (s : State) : State :=
  let pending := if isRecordingPhase then rafIdRef s else playbackRafIdRef s in
  match pending with
  | Some _ => drawWaveform isRecordingPhase h s
  | None => s
  end.

(* ================================================================== *)
(** ** Capture session *)

Definition setupRecordingAnalyser (h : positive) (stream : MediaStream)
  (s : State) : State :=
  let s := ensureAudioContext s in
  let s := log (ECreateSource (StreamSource stream)) s in
  let analyser := mkAnalyser 1024 in
  let s := set_analyserRef (Some analyser) s in
  let s := set_sourceNodeRef (Some (StreamSource stream)) s in
  let s := set_dataArrayRef (Some (frequencyBinCount analyser)) s in
  drawWaveform true h s.

(** [mediaRecorderRef.current.stop()] inside [try { } catch {}]: stopping an
    inactive recorder throws, which is swallowed. *)
Definition try_recorder_stop (r : MediaRecorder) (s : State) : State :=
  match state r with
  | inactive => s
  | recording => log ERecorderStop s
  end.

Definition cleanupRecordingResources (s : State) : State :=
  let s := match rafIdRef s with
           | Some h => set_rafIdRef None (log (ECancelAnimationFrame h) s)
           | None => s
           end in
  let s := match sourceNodeRef s with
           | Some n => set_sourceNodeRef None (log (ENodeDisconnect n) s)
           | None => s
           end in
  let s := set_analyserRef None s in
  let s := set_dataArrayRef None s in
  let s := match mediaRecorderRef s with
           | Some r => set_mediaRecorderRef None (try_recorder_stop r s)
           | None => s
           end in
  match mediaStreamRef s with
  | Some st => set_mediaStreamRef None (log (ETrackStop st) s)
  | None => s
  end.

(** How a call of [requestMicrophone] ends. *)
Inductive MicResult : Type :=
| MicStream (st : MediaStream)
| MicUndefined
| MicThrown.

(** [gum] is the answer of [getUserMedia({ audio: true })]: a stream, or
    [None] when the promise is rejected. *)
Definition requestMicrophone (w : Platform) (gum : option MediaStream)
  (s : State) : State * MicResult :=
  let s := setError "" s in
  if negb (supportsGetUserMedia w) then
    (setError "getUserMedia is not supported by this browser."
       (setPermission denied s), MicUndefined)
  else
    let s := log EGetUserMedia s in
    match gum with
    | Some stream =>
        (setPermission granted (set_mediaStreamRef (Some stream) s),
         MicStream stream)
    | None =>
        (setError "Microphone permission denied or unavailable."
           (setPermission denied s), MicThrown)
    end.

(** Where the [try] block of [startRecording] throws, if it does. *)
Inductive StartFault : Type :=
| NoFault
| CtorThrows          (* new MediaRecorder(stream, options) *)
| AnalyserThrows      (* ctx.createMediaStreamSource(stream) *)
| StartThrows.        (* recorder.start(100) *)

(** The browser during one call of [startRecording]. *)
Record StartEnv : Type := mkStartEnv {
  start_window : Platform;
  start_gum : option MediaStream;
  start_fault : StartFault;
  start_suspended : bool;         (* ctx.state === 'suspended' *)
  start_frame : positive;
}.

Definition start_failed (s : State) : State :=
  setError "Unable to start recording." s.

Definition startRecording (env : StartEnv) (s : State) : State :=
  let w := start_window env in
  let s := setError "" s in
  if negb (supportsMediaRecorder w) || negb (supportsGetUserMedia w) then
    setError "Audio recording is not supported in this browser." s
  else
    let '(s, stream) :=
      match mediaStreamRef s with
      | Some st => (s, Some st)
      | None =>
          match requestMicrophone w (start_gum env) s with
          | (s', MicStream st) => (s', Some st)
          | (s', MicUndefined) => (s', None)
          | (s', MicThrown) => (s', None)
          end
      end in
    match stream with
    | None => s
    | Some stream =>
        let options :=
          if nonempty (mimeType s) then Some (mimeType s) else None in
        match start_fault env with
        | CtorThrows => start_failed s
        | fault =>
            let s := log (ENewMediaRecorder options) s in
            let s := set_mediaRecorderRef
                       (Some (mkRecorder inactive options)) s in
            let s := set_recordedChunksRef [] s in
            match fault with
            | AnalyserThrows => start_failed (ensureAudioContext s)
            | _ =>
                let s := setupRecordingAnalyser (start_frame env) stream s in
                match fault with
                | StartThrows => start_failed s
                | _ =>
                    let s := set_mediaRecorderRef
                               (Some (mkRecorder recording options)) s in
                    let s := log (ERecorderStart 100) s in
                    let s := setIsRecording true s in
                    let s := ensureAudioContext s in
                    if start_suspended env then log EContextResume s else s
                end
            end
        end
    end.

(** [recorder.ondataavailable]: [data] is [e.data], possibly missing. *)
Definition ondataavailable (data : option Chunk) (s : State) : State :=
  match data with
  | Some d =>
      if (0 <? String.length d)%nat
      then set_recordedChunksRef (recordedChunksRef s ++ [d])%list s
      else s
  | None => s
  end.

(** Whether [mediaRecorderRef.current] holds a recorder that is not
    ['inactive']. *)
Definition recorder_active (s : State) : bool :=
  match mediaRecorderRef s with
  | Some r => match state r with recording => true | inactive => false end
  | None => false
  end.

Definition stopRecording (s : State) : State :=
  let s := setError "" s in
  match mediaRecorderRef s with
  | Some r =>
      match state r with
      | recording =>
          set_mediaRecorderRef (Some (mkRecorder inactive (options_mimeType r)))
            (log ERecorderStop s)
      | inactive => s
      end
  | None => s
  end.

(** How the probe of [measureBlobDuration] ends: the promise executor
    throws, or the temporary element (whose object URL is [tmp]) reports its
    metadata with duration [d], or it reports an error. *)
Inductive ProbeOutcome : Type :=
| ProbeThrows
| ProbeLoaded (tmp : string) (d : JsNum)
| ProbeErrored (tmp : string).

(** The promise of [measureBlobDuration]: [Some d] when it resolves with [d],
    [None] when it rejects. *)
Definition measureBlobDuration (p : ProbeOutcome) (s : State)
  : State * option JsNum :=
  match p with
  | ProbeThrows => (s, None)
  | ProbeLoaded tmp d =>
      let s := log (ECreateObjectURL tmp) s in
      (log (ERevokeObjectURL tmp) s, Some (if isFinite d then d else num 0))
  | ProbeErrored tmp =>
      let s := log (ECreateObjectURL tmp) s in
      (log (ERevokeObjectURL tmp) s, Some (num 0))
  end.

(** The browser while [recorder.onstop] runs. *)
Record StopEnv : Type := mkStopEnv {
  stop_blobThrows : bool;            (* new Blob(...) throws *)
  stop_objectURL : option string;    (* URL.createObjectURL(blob), if any *)
  stop_probe : ProbeOutcome;
  stop_timeString : string;          (* new Date().toLocaleTimeString() *)
  stop_now : Z;                      (* Date.now() *)
  stop_random : string;   (* Math.random().toString(36).slice(2, 7) *)
  stop_isoString : string;           (* new Date().toISOString() *)
}.

(** [`${Date.now()}-${Math.random().toString(36).slice(2, 7)}`] *)
Definition make_id (now : Z) (random : string) : string :=
  Number_toString now ++ "-" ++ random.

Definition processing_failed (s : State) : State :=
  setError "Failed to process recording." s.

(** The [try { } catch { }] part of [recorder.onstop]. *)
Definition onstop_try (env : StopEnv) (s : State) : State :=
  if stop_blobThrows env then processing_failed s
  else
    let type := if nonempty (mimeType s) then mimeType s else "audio/webm" in
    let blob := mkBlob (recordedChunksRef s) type in
    let s := log (ENewBlob blob) s in
    match stop_objectURL env with
    | None => processing_failed s
    | Some url =>
        let s := log (ECreateObjectURL url) s in
        match measureBlobDuration (stop_probe env) s with
        | (s, None) => processing_failed s
        | (s, Some duration) =>
            let name := "Recording " ++ stop_timeString env in
            let newRec :=
              Recording.mk (make_id (stop_now env) (stop_random env))
                url blob name duration (stop_isoString env) in
            setRecordings (newRec :: recordings s) s
        end
    end.

(** [recorder.onstop], with its [finally] block. *)
Definition onstop (env : StopEnv) (s : State) : State :=
  let s := onstop_try env s in
  let s := cleanupRecordingResources s in
  setIsRecording false s.

(** A stop of the session: the call of [stopRecording] and, when it stopped
    a recorder, the [stop] event the recorder then delivers. *)
Definition stop_session (env : StopEnv) (s : State) : State :=
  if recorder_active s then onstop env (stopRecording s)
  else stopRecording s.

(* ================================================================== *)
(** ** Recording store and playback slot *)

Definition el_pause (el : Audio.t) : Audio.t :=
  Audio.mk (Audio.src el) true (Audio.currentTime el) (Audio.duration el).

Definition el_play (el : Audio.t) : Audio.t :=
  Audio.mk (Audio.src el) false (Audio.currentTime el) (Audio.duration el).

Definition el_seek (t : JsNum) (el : Audio.t) : Audio.t :=
  Audio.mk (Audio.src el) (Audio.paused el) t (Audio.duration el).

Definition el_at (cur dur : JsNum) (el : Audio.t) : Audio.t :=
  Audio.mk (Audio.src el) (Audio.paused el) cur dur.

(** [el.pause()] on the element with index [i]. *)
Definition audio_pause (i : nat) (s : State) : State :=
  log (EAudioPause i) (set_audios (alter el_pause i (audios s)) s).

(** [el.currentTime = t] *)
Definition audio_seek (i : nat) (t : JsNum) (s : State) : State :=
  log (EAudioSeek i t) (set_audios (alter (el_seek t) i (audios s)) s).

(** [new Audio(url)]: a paused element at position 0 whose duration is not
    known yet; its index is returned with the state. *)
Definition new_Audio (url : string) (s : State) : State * nat :=
  let i := List.length (audios s) in
  let el := Audio.mk url true (num 0) NaN in
  (log (ENewAudio i url) (set_audios (audios s ++ [el])%list s), i).

(** [activeId === recId] *)
Definition activeId_is (recId : string) (s : State) : bool :=
  match activeId s with
  | Some a => String.eqb a recId
  | None => false
  end.

(** [recordings.find((r) => r.id === recId)] *)
Definition find_recording (recId : string) (l : list Recording.t)
  : option Recording.t :=
  List.find (fun r => String.eqb (Recording.id r) recId) l.

Definition cleanupPlaybackResources (s : State) : State :=
  let s := match playbackRafIdRef s with
           | Some h =>
               set_playbackRafIdRef None (log (ECancelAnimationFrame h) s)
           | None => s
           end in
  let s := match playbackSourceRef s with
           | Some n =>
               set_playbackSourceRef None (log (ENodeDisconnect n) s)
           | None => s
           end in
  let s := set_playbackAnalyserRef None s in
  set_playbackDataArrayRef None s.

Definition setupPlaybackAnalyser (h : positive) (audioEl : nat) (s : State)
  : State :=
  let s := ensureAudioContext s in
  let s := log (ECreateSource (ElementSource audioEl)) s in
  let analyser := mkAnalyser 1024 in
  let s := set_playbackAnalyserRef (Some analyser) s in
  let s := set_playbackSourceRef (Some (ElementSource audioEl)) s in
  let s := set_playbackDataArrayRef (Some (frequencyBinCount analyser)) s in
  drawWaveform false h s.

(** The browser during one call of [onPlay]. *)
Record PlayEnv : Type := mkPlayEnv {
  play_analyserThrows : bool;   (* ctx.createMediaElementSource throws *)
  play_suspended : bool;        (* ctx.state === 'suspended' *)
  play_rejected : bool;         (* audioEl.play() rejects *)
  play_frame : positive;
}.

(** [audioEl.play().catch(...)]: a refused element stays paused. *)
Definition audio_play (rejected : bool) (i : nat) (s : State) : State :=
  let s := log (EAudioPlay i) s in
  if rejected then setError "Unable to play audio." s
  else set_audios (alter el_play i (audios s)) s.

Definition onPlay (env : PlayEnv) (recId : string) (s : State) : State :=
  if activeId_is recId s && isPlaying s then
    (* pause *)
    match playbackAudioRef s with
    | Some el => setIsPlaying false (audio_pause el s)
    | None => s
    end
  else
    (* switch track *)
    let s := setActiveId (Some recId) s in
    let s := setPlayProgress (num 0) s in
    (* stop previous *)
    let s := match playbackAudioRef s with
             | Some el => audio_seek el (num 0) (audio_pause el s)
             | None => s
             end in
    let s := cleanupPlaybackResources s in
    match find_recording recId (recordings s) with
    | None => s
    | Some rec =>
        let '(s, audioEl) := new_Audio (Recording.url rec) s in
        let s := set_playbackAudioRef (Some audioEl) s in
        (* visualization *)
        let s :=
          if play_analyserThrows env then ensureAudioContext s
          else
            let s := setupPlaybackAnalyser (play_frame env) audioEl s in
            let s := ensureAudioContext s in
            if play_suspended env then log EContextResume s else s in
        audio_play (play_rejected env) audioEl s
    end.

Definition onDelete (recId : string) (s : State) : State :=
  let s := match find_recording recId (recordings s) with
           | Some rec => log (ERevokeObjectURL (Recording.url rec)) s
           | None => s
           end in
  let s := setRecordings
             (List.filter (fun r => negb (String.eqb (Recording.id r) recId))
                (recordings s)) s in
  if activeId_is recId s then
    let s := match playbackAudioRef s with
             | Some el => set_playbackAudioRef None (audio_pause el s)
             | None => s
             end in
    let s := cleanupPlaybackResources s in
    let s := setActiveId None s in
    let s := setIsPlaying false s in
    setPlayProgress (num 0) s
  else s.

(** *** Listeners installed on the audio element by [onPlay] *)

(** ['timeupdate'], reading [audioEl.currentTime] and [audioEl.duration]. *)
Definition on_timeupdate (audioEl : Audio.t) (s : State) : State :=
  let p :=
    if truthy (Audio.duration audioEl)
    then js_mul (js_div (Audio.currentTime audioEl) (Audio.duration audioEl))
           (num 100)
    else num 0 in
  setPlayProgress p s.

(** ['ended'] *)
Definition on_ended (s : State) : State :=
  let s := setIsPlaying false s in
  let s := setPlayProgress (num 100) s in
  cleanupPlaybackResources s.

(** ['play'] and ['pause'] *)
Definition on_play (s : State) : State := setIsPlaying true s.
Definition on_pause (s : State) : State := setIsPlaying false s.


(* ================================================================== *)
(** ** The component as a transition system *)

(** Everything that can happen to the component: the calls of its handlers
    and the events the browser delivers to the listeners.  A media event
    names the element it comes from; the browser moves an element along its
    timeline before it reports ['timeupdate'], and an element that reaches
    its end is paused before it reports ['ended']. *)
Inductive Event : Type :=
| CallStartRecording (env : StartEnv)
| CallStopRecording
| RecorderData (data : option Chunk)
| RecorderStop (env : StopEnv)
| CallOnPlay (env : PlayEnv) (recId : string)
| CallOnDelete (recId : string)
| MediaTimeupdate (el : nat) (cur dur : JsNum)
| MediaEnded (el : nat)
| MediaPlay (el : nat)
| MediaPause (el : nat)
| AnimationFrame (isRecordingPhase : bool) (h : positive).

(** A media event reaches a listener only if the element exists. *)
Definition with_element (i : nat) (k : Audio.t -> State -> State) (s : State)
  : State :=
  match audios s !! i with
  | Some el => k el s
  | None => s
  end.

Definition step (e : Event) (s : State) : State :=
  match e with
  | CallStartRecording env => startRecording env s
  | CallStopRecording => stopRecording s
  | RecorderData data => ondataavailable data s
  | RecorderStop env => onstop env s
  | CallOnPlay env recId => onPlay env recId s
  | CallOnDelete recId => onDelete recId s
  | MediaTimeupdate i cur dur =>
      with_element i (fun el s =>
        let el := el_at cur dur el in
        on_timeupdate el (set_audios (<[i := el]> (audios s)) s)) s
  | MediaEnded i =>
      with_element i (fun _ s =>
        on_ended (set_audios (alter el_pause i (audios s)) s)) s
  | MediaPlay i => with_element i (fun _ => on_play) s
  | MediaPause i => with_element i (fun _ => on_pause) s
  | AnimationFrame phase h => draw phase h s
  end.

Fixpoint run (es : list Event) (s : State) : State :=
  match es with
  | [] => s
  | e :: es => run es (step e s)
  end.

(** States the component can be in on some platform. *)
Definition reachable (s : State) : Prop :=
  exists w es, s = run es (App w).

(* ================================================================== *)
(** ** Vocabulary of the properties *)

(** Among the elements [l], only the one [r] points at can be playing. *)
Definition only_playing (r : option nat) (l : list Audio.t) : Prop :=
  forall j el, l !! j = Some el -> Audio.paused el = false -> r = Some j.

(** Only the element [playbackAudioRef] points at can be playing. *)
Definition one_playing (s : State) : Prop :=
  only_playing (playbackAudioRef s) (audios s).

(** The playback visualizer is detached: no frame callback, no source node,
    no analyser. *)
Definition visualizer_detached (s : State) : Prop :=
  playbackRafIdRef s = None /\ playbackSourceRef s = None /\
  playbackAnalyserRef s = None /\ playbackDataArrayRef s = None.

(** The capture resources are released: no frame callback, no source node,
    no analyser, no recorder, no stream. *)
Definition capture_released (s : State) : Prop :=
  rafIdRef s = None /\ sourceNodeRef s = None /\ analyserRef s = None /\
  dataArrayRef s = None /\ mediaRecorderRef s = None /\
  mediaStreamRef s = None.

(** Requests that take playback down, and requests that set it up. *)
Definition is_teardown (e : Effect) : bool :=
  match e with
  | EAudioPause _ | EAudioSeek _ _ | ECancelAnimationFrame _
  | ENodeDisconnect _ => true
  | _ => false
  end.

Definition is_setup (e : Effect) : bool :=
  match e with
  | ENewAudio _ _ | ENewAudioContext | ECreateSource _
  | ERequestAnimationFrame _ | EContextResume | EAudioPlay _ => true
  | _ => false
  end.

(** The requests [pre] take down the playback that state [s] holds: they
    are all teardown requests, and they pause and rewind the element [s]
    refers to, disconnect its source node and cancel its frame callback. *)
Definition torn_down_by (s : State) (pre : list Effect) : Prop :=
  forallb is_teardown pre = true /\
  (forall i, playbackAudioRef s = Some i ->
             In (EAudioPause i) pre /\ In (EAudioSeek i (num 0)) pre) /\
  (forall n, playbackSourceRef s = Some n -> In (ENodeDisconnect n) pre) /\
  (forall h, playbackRafIdRef s = Some h ->
             In (ECancelAnimationFrame h) pre).



(** The ways the [try] block of [recorder.onstop] is left by an exception:
    [new Blob] throws, [URL.createObjectURL] throws, or the promise of
    [measureBlobDuration] rejects. *)
Definition processing_throws (env : StopEnv) : bool :=
  stop_blobThrows env ||
  match stop_objectURL env with None => true | Some _ => false end ||
  match stop_probe env with ProbeThrows => true | _ => false end.

(** A string of decimal digits. *)
Fixpoint digits_only (x : string) : bool :=
  match x with
  | EmptyString => true
  | String c rest =>
      (48 <=? nat_of_ascii c)%nat && (nat_of_ascii c <=? 57)%nat &&
      digits_only rest
  end.

(* ================================================================== *)
(** ** A session used in the examples *)

(** A browser like the mock of the test suite: [MediaRecorder] and
    [getUserMedia] exist, and no type is reported as supported. *)
Definition w_plain : Platform :=
  mkPlatform (Some (mkCtor (Some (fun _ => false)))) true.

(** A browser whose recorder supports ['audio/mp4'] only. *)
Definition w_mp4 : Platform :=
  mkPlatform (Some (mkCtor (Some (String.eqb "audio/mp4")))) true.

Definition start_ok : StartEnv :=
  mkStartEnv w_plain (Some (Stream 0)) NoFault false 1%positive.

Definition stop_with (p : ProbeOutcome) (url : string) (now : Z) : StopEnv :=
  mkStopEnv false (Some url) p "10:00:00" now "k3x9q"
    "2024-01-01T10:00:00.000Z".

Definition stop_ok : string -> Z -> StopEnv :=
  stop_with (ProbeLoaded "blob:probe" (num 2)).

Definition play_ok : PlayEnv := mkPlayEnv false false false 2%positive.

(** Recording in progress, with one chunk received. *)
Definition events_recording : list Event :=
  [CallStartRecording start_ok; RecorderData (Some "chunk")].

Definition session_recording : State := run events_recording (App w_plain).

(** One stored recording, of two seconds, with id ["1000-k3x9q"]. *)
Definition events_one : list Event :=
  [CallStartRecording start_ok; RecorderData (Some "chunk");
   CallStopRecording; RecorderStop (stop_ok "blob:a" 1000)].

Definition session_one : State := run events_one (App w_plain).

Definition recording_one : Recording.t :=
  Recording.mk "1000-k3x9q" "blob:a" (mkBlob ["chunk"] "audio/webm")
    "Recording 10:00:00" (num 2) "2024-01-01T10:00:00.000Z".



(** The first recording playing, one second in: progress 50. *)
Definition events_playing : list Event :=
  [CallStartRecording start_ok; RecorderData (Some "chunk");
   CallStopRecording; RecorderStop (stop_ok "blob:a" 1000);
   CallOnPlay play_ok "1000-k3x9q"; MediaPlay 0;
   MediaTimeupdate 0 (num 1) (num 2)].

Definition session_playing : State := run events_playing (App w_plain).

(* ================================================================== *)
(** ** Waveform and labels *)








(** The status text of the playback card:
    [isPlaying ? 'Playing' : activeId ? 'Paused' : 'Idle']. *)
Definition status_label (s : State) : string :=
  if isPlaying s then "Playing"
  else match activeId s with
       | Some a => if nonempty a then "Paused" else "Idle"
       | None => "Idle"
       end.

(** The label of the play button of a row:
    [activeId === rec.id && isPlaying ? 'Pause' : 'Play']. *)
Definition row_label (s : State) (rec : Recording.t) : string :=
  if activeId_is (Recording.id rec) s && isPlaying s then "Pause"
  else "Play".

(** The labels of the rows, in list order. *)
Definition row_labels (s : State) : list string :=
  map (row_label s) (recordings s).

(* ================================================================== *)
(** ** Vocabulary of the further properties *)

(** The chunks [recorder.ondataavailable] keeps of the data it is given:
    those present and not empty, in order. *)
Fixpoint kept_chunks (ds : list (option Chunk)) : list Chunk :=
  match ds with
  | [] => []
  | Some d :: rest =>
      if (0 <? String.length d)%nat then d :: kept_chunks rest
      else kept_chunks rest
  | None :: rest => kept_chunks rest
  end.

(** How many of the requests [tr] satisfy [p]. *)
Definition count_effects (p : Effect -> bool) (tr : list Effect) : nat :=
  List.length (List.filter p tr).

Definition is_new_context (e : Effect) : bool :=
  match e with ENewAudioContext => true | _ => false end.

Definition is_mic_request (e : Effect) : bool :=
  match e with EGetUserMedia => true | _ => false end.

Definition is_track_stop (e : Effect) : bool :=
  match e with ETrackStop _ => true | _ => false end.

Definition is_recorder_stop (e : Effect) : bool :=
  match e with ERecorderStop => true | _ => false end.

(** The type every blob of a session on platform [w] is given:
    [mimeType || 'audio/webm']. *)
Definition session_blob_type (w : Platform) : string :=
  if nonempty (mimeType (App w)) then mimeType (App w) else "audio/webm".

(** The playback visualizer, when attached, is attached to the element
    [playbackAudioRef] points at, and that element exists. *)
Definition visualizer_on_slot (s : State) : Prop :=
  (forall n, playbackSourceRef s = Some n ->
     exists j, n = ElementSource j /\ playbackAudioRef s = Some j) /\
  (forall j, playbackAudioRef s = Some j -> (j < List.length (audios s))%nat)
  /\ (playbackRafIdRef s = None <-> playbackSourceRef s = None).

(* ================================================================== *)
(** ** Duration formatting *)


Lemma Math_round_nonneg (q : Q) : (0 <= q)%Q -> (0 <= Math_round q)%Z.
Proof.
  intros Hq. unfold Math_round.
  assert (H : (inject_Z 0 <= q + (1 # 2))%Q).
  { apply Qle_trans with q; [exact Hq|].
    rewrite <- (Qplus_0_r q) at 1. apply Qplus_le_r. discriminate. }
  apply Qfloor_resp_le in H. rewrite Qfloor_Z in H. exact H.
Qed.

Lemma pad_seconds (r : Z) :
  (0 <= r < 60)%Z -> padStart 2 "0" (Number_toString r) = two_digits r.
Proof.
  intros Hr.
  assert (H : exists n, r = Z.of_nat n /\ (n < 60)%nat).
  { exists (Z.to_nat r). lia. }
  destruct H as [n [-> Hn]].
  do 60 (destruct n as [|n]; [reflexivity|]). lia.
Qed.



(* ================================================================== *)
(** ** Running the handlers symbolically *)

(** [exec] runs the handlers on a state whose cells are explicit.  The
    cells a handler branches on are opened first ([open_capture],
    [open_playback]), so that every intermediate state is a record. *)
Ltac exec :=
  cbv beta iota zeta delta
    [step with_element startRecording stopRecording ondataavailable
     onstop onstop_try measureBlobDuration processing_failed stop_session
     requestMicrophone start_failed setupRecordingAnalyser
     cleanupRecordingResources try_recorder_stop onPlay onDelete
     on_timeupdate on_ended on_play on_pause draw audio_play new_Audio
     setupPlaybackAnalyser cleanupPlaybackResources audio_seek audio_pause
     drawWaveform ensureAudioContext log activeId_is recorder_active
     setPermission setIsRecording setRecordings setError setActiveId
     setIsPlaying setPlayProgress
     set_mediaRecorderRef set_mediaStreamRef set_recordedChunksRef
     set_audioContextRef set_analyserRef set_dataArrayRef set_sourceNodeRef
     set_rafIdRef set_playbackAudioRef set_playbackSourceRef
     set_playbackAnalyserRef set_playbackDataArrayRef set_playbackRafIdRef
     set_audios set_trace
     permission isRecording recordings error activeId isPlaying playProgress
     mimeType mediaRecorderRef mediaStreamRef recordedChunksRef
     audioContextRef analyserRef dataArrayRef sourceNodeRef rafIdRef
     playbackAudioRef playbackSourceRef playbackAnalyserRef
     playbackDataArrayRef playbackRafIdRef audios trace
     andb orb negb nonempty
     supportsMediaRecorder supportsGetUserMedia canRecord
     window_MediaRecorder mediaDevices_getUserMedia
     start_window start_gum start_fault start_suspended start_frame
     stop_blobThrows stop_objectURL stop_probe stop_timeString stop_now
     stop_random stop_isoString processing_throws
     play_analyserThrows play_suspended play_rejected play_frame
     state options_mimeType fst snd] in *.

Ltac open_state s :=
  destruct s as [perm isRec recs err actId playing prog mime mrRef msRef
                 chunks ctxRef anRef daRef snRef rafRef paRef psRef panRef
                 pdaRef prafRef els tr].

(** The cells [startRecording] branches on. *)
Ltac open_start s :=
  destruct s as [perm isRec recs err actId playing prog [|mime0 mime]
                 mrRef [msRef|] chunks [[]|] anRef daRef snRef rafRef paRef
                 psRef panRef pdaRef prafRef els tr].

(** The cells [recorder.onstop] branches on. *)
Ltac open_stop s :=
  destruct s as [perm isRec recs err actId playing prog [|mime0 mime]
                 [[[|] mrOpt]|] [msRef|] chunks ctxRef anRef daRef [snRef|]
                 [rafRef|] paRef psRef panRef pdaRef prafRef els tr].

Ltac open_recorder s :=
  destruct s as [perm isRec recs err actId playing prog mime
                 [[[|] mrOpt]|] msRef chunks ctxRef anRef daRef snRef
                 rafRef paRef psRef panRef pdaRef prafRef els tr].

(** The cells the switch branch of [onPlay] branches on. *)
Ltac open_play s :=
  destruct s as [perm isRec recs err actId playing prog mime mrRef msRef
                 chunks [[]|] anRef daRef snRef rafRef [paRef|] [psRef|]
                 panRef pdaRef [prafRef|] els tr].

(** The cells [onDelete] branches on. *)
Ltac open_delete s :=
  destruct s as [perm isRec recs err [actId|] playing prog mime mrRef msRef
                 chunks ctxRef anRef daRef snRef rafRef [paRef|] [psRef|]
                 panRef pdaRef [prafRef|] els tr].

Ltac open_ref s :=
  destruct s as [perm isRec recs err actId playing prog mime mrRef msRef
                 chunks ctxRef anRef daRef snRef rafRef [paRef|] psRef
                 panRef pdaRef prafRef els tr].

Ltac open_visualizer s :=
  destruct s as [perm isRec recs err actId playing prog mime mrRef msRef
                 chunks ctxRef anRef daRef snRef rafRef paRef [psRef|]
                 panRef pdaRef [prafRef|] els tr].

Ltac open_frames s :=
  destruct s as [perm isRec recs err actId playing prog mime mrRef msRef
                 chunks ctxRef anRef daRef snRef [rafRef|] paRef psRef
                 panRef pdaRef [prafRef|] els tr].

Ltac open_start_env env :=
  destruct env as [[[ctor|] [|]] [gum|] [| | |] [|] frame].

Ltac open_stop_env env :=
  destruct env as [[|] [url|] [|tmp d|tmp] timeStr now rnd iso].

Ltac open_play_env env :=
  destruct env as [[|] [|] [|] frame].

(** The tests a handler makes on data that stays symbolic. *)
Ltac split_tests :=
  repeat match goal with
    | |- context [String.eqb ?a ?b] => destruct (String.eqb a b)
    | |- context [find_recording ?a ?b] => destruct (find_recording a b)
    | |- context [@lookup nat Audio.t _ _ ?i ?l] =>
        destruct (@lookup nat Audio.t _ _ i l) eqn:?
    | |- context [Nat.ltb ?a ?b] => destruct (Nat.ltb a b)
    end; exec.

(** One step of the component, case by case; [fin] closes each case. *)
Ltac step_cases e s fin :=
  destruct e as [env| |[data|]|env|env recId|recId|i cur dur|i|i|i|[|] h];
  [ match goal with x : StartEnv |- _ => open_start_env x end;
    open_start s; exec; fin
  | open_recorder s; exec; fin
  | open_state s; exec; split_tests; fin
  | open_state s; exec; fin
  | match goal with x : StopEnv |- _ => open_stop_env x end;
    open_stop s; exec; fin
  | unfold step, onPlay;
    match goal with
    | |- context [activeId_is ?r s && isPlaying s] =>
        destruct (activeId_is r s && isPlaying s)
    end;
    [ open_ref s; exec; fin
    | match goal with x : PlayEnv |- _ => open_play_env x end;
      open_play s; exec; split_tests; fin ]
  | unfold step, onDelete;
    match goal with
    | |- context [find_recording ?r (recordings s)] =>
        destruct (find_recording r (recordings s))
    end; open_delete s; exec; split_tests; fin
  | open_state s; exec; split_tests; fin
  | open_visualizer s; exec; split_tests; fin
  | open_state s; exec; split_tests; fin
  | open_state s; exec; split_tests; fin
  | open_frames s; exec; fin
  | open_frames s; exec; fin ].

(* ================================================================== *)
(** ** Playback progress *)











(* ================================================================== *)
(** ** Stop without a running recorder *)

Lemma step_idle_recorder (e : Event) (s : State) :
  (isRecording s = false -> recorder_active s = false) ->
  isRecording (step e s) = false -> recorder_active (step e s) = false.
Proof.
  intros Hs.
  step_cases e s
    ltac:(first [ exact Hs | intros _; reflexivity
                | intros Hx; discriminate Hx | intros Hx; exact (Hs Hx) ]).
Qed.

Lemma reachable_idle_recorder (s : State) :
  reachable s -> isRecording s = false -> recorder_active s = false.
Proof.
  intros (w & es & ->). generalize (App w) (fun _ : isRecording (App w) = false
    => eq_refl : recorder_active (App w) = false).
  induction es as [|e es IH]; intros s Hs; simpl; [exact Hs|].
  apply IH. apply step_idle_recorder. exact Hs.
Qed.

Lemma stopRecording_inactive (s : State) :
  recorder_active s = false -> stopRecording s = setError "" s.
Proof. open_recorder s; exec; intros; congruence. Qed.

(** C8. In a state the component can reach in which no recording is in
    progress, no recorder is active, and a call of [stopRecording] only
    clears the error message: no [stop] event follows, the session stays
    idle, and the recordings list and the playback slot are unchanged. *)
Theorem stop_when_idle (env : StopEnv) (s : State) :
  reachable s -> isRecording s = false ->
  stopRecording s = setError "" s /\
  stop_session env s = stopRecording s /\
  isRecording (stopRecording s) = false /\
  recorder_active (stopRecording s) = false /\
  recordings (stopRecording s) = recordings s /\
  activeId (stopRecording s) = activeId s /\
  isPlaying (stopRecording s) = isPlaying s /\
  playProgress (stopRecording s) = playProgress s /\
  trace (stopRecording s) = trace s.
Proof.
  intros Hr Hi.
  pose proof (reachable_idle_recorder s Hr Hi) as Ha.
  rewrite (stopRecording_inactive s Ha).
  unfold stop_session. rewrite Ha.
  repeat split; try reflexivity; try assumption.
  apply stopRecording_inactive. exact Ha.
Qed.

(** Stop on a freshly constructed component. *)
Lemma stop_when_idle_witness :
  reachable (App w_plain) /\ isRecording (App w_plain) = false /\
  stopRecording (App w_plain) = App w_plain.
Proof.
  assert (Hr : reachable (App w_plain)) by (exists w_plain, []; reflexivity).
  split; [exact Hr|]. split; [reflexivity|].
  rewrite (proj1 (stop_when_idle (stop_ok "blob:a" 0) (App w_plain) Hr
                    eq_refl)).
  reflexivity.
Defined.

(* ================================================================== *)
(** ** At most one element plays *)

Lemma only_alter (f : Audio.t -> Audio.t) (r : option nat) (i : nat)
  (l : list Audio.t) :
  (forall e, Audio.paused (f e) = false -> Audio.paused e = false) ->
  only_playing r l -> only_playing r (alter f i l).
Proof.
  intros Hf Hl j el Hj Hp. destruct (decide (i = j)) as [->|Hne].
  - rewrite list_lookup_alter_eq in Hj.
    destruct (l !! j) as [e0|] eqn:E; [|discriminate].
    injection Hj as <-. eapply Hl; eauto.
  - rewrite list_lookup_alter_ne in Hj by exact Hne. eapply Hl; eauto.
Qed.

Lemma only_alter_pause r i l :
  only_playing r l -> only_playing r (alter el_pause i l).
Proof. apply only_alter. intros e H. discriminate H. Qed.

Lemma only_alter_seek t r i l :
  only_playing r l -> only_playing r (alter (el_seek t) i l).
Proof. apply only_alter. intros e H. exact H. Qed.

Lemma only_pause_ref r i l :
  only_playing (Some i) l -> only_playing r (alter el_pause i l).
Proof.
  intros Hl j el Hj Hp. destruct (decide (i = j)) as [->|Hne].
  - rewrite list_lookup_alter_eq in Hj.
    destruct (l !! j); [|discriminate]. injection Hj as <-. discriminate Hp.
  - rewrite list_lookup_alter_ne in Hj by exact Hne.
    specialize (Hl j el Hj Hp). congruence.
Qed.

Lemma only_none r l : only_playing None l -> only_playing r l.
Proof. intros Hl j el Hj Hp. specialize (Hl j el Hj Hp). discriminate. Qed.

Lemma only_new e l :
  only_playing None l ->
  only_playing (Some (List.length l)) (l ++ [e])%list.
Proof.
  intros Hl j el Hj Hp.
  destruct (decide (j < List.length l)%nat) as [Hlt|Hge].
  - rewrite lookup_app_l in Hj by exact Hlt.
    specialize (Hl j el Hj Hp). discriminate.
  - apply lookup_lt_Some in Hj. rewrite length_app in Hj. simpl in Hj.
    f_equal. lia.
Qed.

Lemma only_play_ref k l :
  only_playing (Some k) l -> only_playing (Some k) (alter el_play k l).
Proof.
  intros Hl j el Hj Hp. destruct (decide (k = j)) as [->|Hne]; [reflexivity|].
  rewrite list_lookup_alter_ne in Hj by exact Hne. eapply Hl; eauto.
Qed.

Lemma only_insert_at cur dur e0 r i l :
  l !! i = Some e0 -> only_playing r l ->
  only_playing r (<[i := el_at cur dur e0]> l).
Proof.
  intros Hi Hl j el Hj Hp. destruct (decide (i = j)) as [->|Hne].
  - rewrite list_lookup_insert_eq in Hj by (eapply lookup_lt_Some; eauto).
    injection Hj as <-. eapply Hl; eauto.
  - rewrite list_lookup_insert_ne in Hj by exact Hne. eapply Hl; eauto.
Qed.

Create HintDb playing.
#[local] Hint Resolve only_alter_pause only_alter_seek only_pause_ref
  only_none only_new only_play_ref only_insert_at : playing.



(* ================================================================== *)
(** ** [onPlay] *)

Lemma activeId_is_true (id : string) (s : State) :
  activeId_is id s = true -> activeId s = Some id.
Proof.
  unfold activeId_is. destruct (activeId s) as [a|]; [|discriminate].
  intros H. apply String.eqb_eq in H. congruence.
Qed.


Lemma new_lookup (e : Audio.t) (l : list Audio.t) (n : nat) :
  List.length l = n -> (l ++ [e])%list !! n = Some e.
Proof. intros <-. apply list_lookup_middle. reflexivity. Qed.

Lemma new_lookup_played (e : Audio.t) (l : list Audio.t) (n : nat) :
  List.length l = n ->
  alter el_play n (l ++ [e])%list !! n = Some (el_play e).
Proof.
  intros H. rewrite list_lookup_alter_eq, (new_lookup e l n H). reflexivity.
Qed.

Lemma stopped_lookup (x : Audio.t) (l : list Audio.t) (i : nat) :
  l !! i = Some x ->
  alter (el_seek (num 0)) i (alter el_pause i l) !! i =
    Some (el_seek (num 0) (el_pause x)).
Proof. intros H. rewrite !list_lookup_alter_eq, H. reflexivity. Qed.

(** Rewrites the requests a branch added into [old ++ e1 :: e2 :: ...] and
    cuts them in front of the construction of the new element. *)
Ltac cut_trace :=
  rewrite ?length_alter; rewrite <- ?app_assoc; simpl;
  first
    [ exists []; eexists; split; [reflexivity|]
    | eexists [_]; eexists; split; [reflexivity|]
    | eexists [_; _]; eexists; split; [reflexivity|]
    | eexists [_; _; _]; eexists; split; [reflexivity|]
    | eexists [_; _; _; _]; eexists; split; [reflexivity|] ].

Ltac torn_down :=
  unfold torn_down_by; simpl;
  split; [reflexivity|];
  repeat split; intros;
  repeat match goal with
    | H : None = Some _ |- _ => discriminate H
    | H : Some _ = Some _ |- _ => injection H as <-
    end; simpl; tauto.

(** The branch of [onPlay] taken when the id is not the one that plays:
    what it leaves for a stored recording. *)
Lemma onPlay_switch (env : PlayEnv) (B : string) (recB : Recording.t)
  (s : State) :
  activeId_is B s && isPlaying s = false ->
  find_recording B (recordings s) = Some recB ->
  let s' := onPlay env B s in
  let j := List.length (audios s) in
  activeId s' = Some B /\ playProgress s' = num 0 /\
  isPlaying s' = isPlaying s /\ recordings s' = recordings s /\
  playbackAudioRef s' = Some j /\
  audios s' !! j =
    Some (Audio.mk (Recording.url recB) (play_rejected env) (num 0) NaN) /\
  (forall i x, playbackAudioRef s = Some i -> audios s !! i = Some x ->
     audios s' !! i = Some (el_seek (num 0) (el_pause x))) /\
  exists pre post,
    trace s' = (trace s ++ pre ++ ENewAudio j (Recording.url recB) :: post)%list
    /\ torn_down_by s pre /\ forallb is_setup post = true.
Proof.
  intros Ht Hf. cbv zeta. unfold onPlay. rewrite Ht.
  open_play_env env; open_play s; exec; rewrite Hf; exec;
    rewrite ?length_alter;
    (split; [reflexivity|]); (split; [reflexivity|]);
    (split; [reflexivity|]); (split; [reflexivity|]);
    (split; [reflexivity|]);
    (split;
     [ first [ apply new_lookup_played | apply new_lookup ];
       rewrite ?length_alter; reflexivity |]);
    (split;
     [ intros i x Hi Hx; try discriminate Hi; injection Hi as <-;
       pose proof (lookup_lt_Some _ _ _ Hx) as Hlt;
       rewrite ?list_lookup_alter_ne by lia;
       rewrite lookup_app_l by (rewrite !length_alter; exact Hlt);
       apply stopped_lookup; exact Hx |]);
    cut_trace; (split; [torn_down | reflexivity]).
Qed.




Lemma only_none_paused (l : list Audio.t) :
  only_playing None l ->
  forall k el, l !! k = Some el -> Audio.paused el = true.
Proof.
  intros Hl k el Hk. destruct (Audio.paused el) eqn:Hp; [reflexivity|].
  specialize (Hl k el Hk Hp). discriminate.
Qed.

Lemma find_recording_absent (id : string) (l : list Recording.t) :
  ~ In id (map Recording.id l) -> find_recording id l = None.
Proof.
  unfold find_recording. induction l as [|r l IH]; simpl; [reflexivity|].
  intros Hn. destruct (String.eqb (Recording.id r) id) eqn:E.
  - apply String.eqb_eq in E. tauto.
  - apply IH. tauto.
Qed.







(* ================================================================== *)
(** ** [onPlay] on an id that is not stored *)

(** C10. When no stored recording has the id (and the id is not the one
    reported as playing), [onPlay] still makes it the active id and resets
    progress to 0, after pausing and rewinding the previous element and
    detaching the visualizer; it constructs no element and starts no
    playback: [isPlaying] is left as it was, no element plays afterwards,
    and the slot names an id that [recordings] does not contain. *)
Theorem play_unknown_id (env : PlayEnv) (id : string) (s : State) :
  ~ In id (map Recording.id (recordings s)) ->
  activeId_is id s && isPlaying s = false ->
  let s' := onPlay env id s in
  activeId s' = Some id /\ playProgress s' = num 0 /\
  isPlaying s' = isPlaying s /\
  recordings s' = recordings s /\
  find_recording id (recordings s') = None /\
  playbackAudioRef s' = playbackAudioRef s /\
  audios s' =
    match playbackAudioRef s with
    | Some i => alter (el_seek (num 0)) i (alter el_pause i (audios s))
    | None => audios s
    end /\
  visualizer_detached s' /\
  (exists pre, trace s' = (trace s ++ pre)%list /\ torn_down_by s pre) /\
  (one_playing s ->
   forall k el, audios s' !! k = Some el -> Audio.paused el = true).
Proof.
  intros Hn Ht. apply find_recording_absent in Hn. cbv zeta.
  unfold onPlay, visualizer_detached, one_playing. rewrite Ht.
  open_play_env env; open_play s; exec; rewrite Hn; exec;
    (split; [reflexivity|]); (split; [reflexivity|]);
    (split; [reflexivity|]); (split; [reflexivity|]);
    (split; [exact Hn|]); (split; [reflexivity|]);
    (split; [reflexivity|]); (split; [repeat split|]);
    (split;
     [ rewrite <- ?app_assoc; simpl;
       first [ eexists; split; [reflexivity|]
             | exists []; split; [symmetry; apply app_nil_r|] ];
       torn_down
     | intros Hone; apply only_none_paused; eauto 6 with playing ]).
Qed.

(** An id that the example session does not store. *)
Lemma play_unknown_id_witness :
  ~ In "absent" (map Recording.id (recordings session_one)) /\
  activeId_is "absent" session_one && isPlaying session_one = false /\
  activeId (onPlay play_ok "absent" session_one) = Some "absent".
Proof.
  assert (H1 : ~ In "absent" (map Recording.id (recordings session_one))).
  { vm_compute. intros [H|[]]. discriminate H. }
  assert (H2 : activeId_is "absent" session_one && isPlaying session_one
               = false) by (vm_compute; reflexivity).
  split; [exact H1|]. split; [exact H2|].
  exact (proj1 (play_unknown_id play_ok "absent" session_one H1 H2)).
Defined.

(* ================================================================== *)
(** ** [onDelete] *)

Lemma filter_keep_all {A : Type} (f : A -> bool) (l : list A) :
  (forall x, In x l -> f x = true) -> List.filter f l = l.
Proof.
  induction l as [|a l IH]; simpl; intros H; [reflexivity|].
  rewrite (H a) by tauto. f_equal. apply IH. intros x Hx. apply H. tauto.
Qed.




(* ================================================================== *)
(** ** Identifiers *)

Lemma digits_of_uint (d : Decimal.uint) :
  digits_only (NilEmpty.string_of_uint d) = true.
Proof. induction d; simpl; auto. Qed.

Lemma digits_of_nonneg (n : Z) :
  (0 <= n)%Z -> digits_only (Number_toString n) = true.
Proof.
  intros Hn. unfold Number_toString. destruct n as [|p|p]; [reflexivity| |lia].
  simpl. unfold NilZero.string_of_uint.
  destruct (Pos.to_uint p) eqn:E; try reflexivity;
    rewrite <- E; apply digits_of_uint.
Qed.

Lemma to_int_not_nil (n : Z) :
  Z.to_int n <> Decimal.Pos Decimal.Nil /\
  Z.to_int n <> Decimal.Neg Decimal.Nil.
Proof.
  destruct n as [|p|p]; simpl; split; try discriminate;
    intros H; injection H as H; exact (DecimalPos.Unsigned.to_uint_nonnil p H).
Qed.

Lemma Number_toString_inj (a b : Z) :
  Number_toString a = Number_toString b -> a = b.
Proof.
  unfold Number_toString. intros H.
  destruct (to_int_not_nil a) as [Ha1 Ha2].
  destruct (to_int_not_nil b) as [Hb1 Hb2].
  pose proof (NilZero.isi (Z.to_int a) Ha1 Ha2) as Ia.
  pose proof (NilZero.isi (Z.to_int b) Hb1 Hb2) as Ib.
  rewrite H in Ia. rewrite Ia in Ib. injection Ib as Ib.
  apply DecimalZ.to_int_inj. exact Ib.
Qed.



(* ================================================================== *)
(** ** The end of a recording *)



(** C2 (as amended). Whatever happens while a stopped recorder's chunks are
    processed, the capture resources are released (frame callback
    cancelled, source node disconnected, stream tracks stopped, refs
    cleared) and the session is idle.  If the processing throws (blob
    assembly, object URL, or the duration probe's promise), no entry is
    added and the error message is set.  If the duration probe only reports
    an error, or a duration that is not finite, the entry is added all the
    same, with duration 0. *)
Theorem stop_processing_outcomes (env : StopEnv) (s : State) :
  recorder_active s = true ->
  let s' := stop_session env s in
  (capture_released s' /\ isRecording s' = false /\
   (forall st, mediaStreamRef s = Some st -> In (ETrackStop st) (trace s')) /\
   (forall n, sourceNodeRef s = Some n -> In (ENodeDisconnect n) (trace s')) /\
   (forall h, rafIdRef s = Some h ->
              In (ECancelAnimationFrame h) (trace s'))) /\
  (processing_throws env = true ->
   recordings s' = recordings s /\
   error s' = "Failed to process recording.") /\
  (processing_throws env = false ->
   exists r,
     recordings s' = r :: recordings s /\ error s' = "" /\
     Recording.duration r =
       match stop_probe env with
       | ProbeLoaded _ d => if isFinite d then d else num 0
       | _ => num 0
       end).
Proof.
  intros Ha. cbv zeta. unfold stop_session, capture_released. rewrite Ha.
  open_stop_env env; open_stop s; exec; try discriminate Ha;
    (split;
     [ repeat split; intros ? Hx; try discriminate Hx; injection Hx as <-;
       rewrite <- ?app_assoc; simpl; rewrite ?in_app_iff; simpl; tauto |]);
    (split; intros Hx; try discriminate Hx);
    first [ split; reflexivity | eexists; repeat split; reflexivity ].
Qed.

(** A stop whose duration probe throws. *)
Lemma stop_processing_outcomes_witness :
  recorder_active session_recording = true /\
  isRecording
    (stop_session (stop_with ProbeThrows "blob:a" 1000) session_recording)
  = false.
Proof.
  assert (H1 : recorder_active session_recording = true)
    by (vm_compute; reflexivity).
  split; [exact H1|].
  exact (proj1 (proj2 (proj1
    (stop_processing_outcomes (stop_with ProbeThrows "blob:a" 1000)
       session_recording H1)))).
Defined.

(** C2 (counterexample). The recorder is stopped and the duration probe
    fails: the temporary element reports an error.  The recording is not
    dropped: the list, empty before, holds the new entry with duration 0,
    and no error message is set. *)
Lemma probe_error_still_appends :
  let env := stop_with (ProbeErrored "blob:probe") "blob:a" 1000 in
  let s' := stop_session env session_recording in
  recorder_active session_recording = true /\
  recordings session_recording = [] /\
  recordings s' =
    [Recording.mk "1000-k3x9q" "blob:a" (mkBlob ["chunk"] "audio/webm")
       "Recording 10:00:00" (num 0) "2024-01-01T10:00:00.000Z"] /\
  error s' = "".
Proof. vm_compute. repeat split. Qed.

(* ================================================================== *)
(** ** Encoding format *)

Lemma first_supported_first (ctor : RecorderCtor) (pre post : list string)
  (t : string) :
  (forall x, In x pre -> type_supported ctor x = false) ->
  type_supported ctor t = true ->
  first_supported ctor (pre ++ t :: post)%list = t.
Proof.
  induction pre as [|a pre IH]; simpl; intros Hpre Ht.
  - rewrite Ht. reflexivity.
  - rewrite (Hpre a) by tauto. apply IH; [|exact Ht].
    intros x Hx. apply Hpre. tauto.
Qed.

Lemma first_supported_none (ctor : RecorderCtor) (l : list string) :
  (forall x, In x l -> type_supported ctor x = false) ->
  first_supported ctor l = "".
Proof.
  induction l as [|a l IH]; simpl; intros Hl; [reflexivity|].
  rewrite (Hl a) by tauto. apply IH. intros x Hx. apply Hl. tauto.
Qed.

Lemma step_mimeType (e : Event) (s : State) :
  mimeType (step e s) = mimeType s.
Proof. step_cases e s ltac:(reflexivity). Qed.

Lemma run_mimeType (es : list Event) (s : State) :
  mimeType (run es s) = mimeType s.
Proof.
  revert s. induction es as [|e es IH]; intros s; simpl; [reflexivity|].
  rewrite IH. apply step_mimeType.
Qed.

(** C3 (as amended). The memoised type of a component constructed on
    platform [w] is the first entry of the fixed candidate list that
    [MediaRecorder.isTypeSupported] accepts, and the empty string if there
    is none; no operation changes it afterwards.  A call of
    [startRecording] that finds both browser interfaces and a stream, and
    meets no exception, constructs and starts a recorder with that type as
    its option, or with no type option when the memoised type is empty: a
    session without a supported candidate still records.  Only when
    [MediaRecorder] or [getUserMedia] is missing does the call construct
    nothing and leave the session as it was, apart from the error
    message. *)
Theorem mime_selection (w : Platform) :
  (forall ctor pre t post,
     window_MediaRecorder w = Some ctor ->
     candidates = (pre ++ t :: post)%list ->
     (forall x, In x pre -> type_supported ctor x = false) ->
     type_supported ctor t = true ->
     mimeType (App w) = t) /\
  ((forall ctor, window_MediaRecorder w = Some ctor ->
      forall x, In x candidates -> type_supported ctor x = false) ->
   mimeType (App w) = "") /\
  (forall es, mimeType (run es (App w)) = mimeType (App w)) /\
  (forall env s st,
     canRecord (start_window env) = true ->
     mediaStreamRef s = Some st \/
       (mediaStreamRef s = None /\ start_gum env = Some st) ->
     start_fault env = NoFault ->
     let s' := startRecording env s in
     let options :=
       if nonempty (mimeType s) then Some (mimeType s) else None in
     isRecording s' = true /\
     mediaRecorderRef s' = Some (mkRecorder recording options) /\
     In (ENewMediaRecorder options) (trace s') /\
     (mimeType s = "" -> options = None)) /\
  (forall env s,
     canRecord (start_window env) = false ->
     let s' := startRecording env s in
     isRecording s' = isRecording s /\
     mediaRecorderRef s' = mediaRecorderRef s /\
     trace s' = trace s /\
     error s' = "Audio recording is not supported in this browser.").
Proof.
  split; [|split; [|split; [|split]]].
  - intros ctor pre t post Hw Hc Hpre Ht. simpl.
    unfold supportsMediaRecorder, pickBestAudioMime. rewrite Hw, Hc.
    apply first_supported_first; assumption.
  - intros Hnone. simpl. unfold supportsMediaRecorder, pickBestAudioMime.
    destruct (window_MediaRecorder w) as [ctor|] eqn:Hw; [|reflexivity].
    apply first_supported_none. apply (Hnone ctor). reflexivity.
  - intros es. apply run_mimeType.
  - intros env s st Hcan Hst Hfault. cbv zeta.
    open_start_env env; open_start s; exec; try discriminate Hcan;
      try discriminate Hfault;
      destruct Hst as [Hst|[Hst Hg]]; try discriminate Hst;
      try discriminate Hg;
      repeat split; try reflexivity; try discriminate;
      rewrite <- ?app_assoc; simpl; rewrite ?in_app_iff; simpl; tauto.
  - intros env s Hcan. cbv zeta.
    open_start_env env; open_start s; exec; try discriminate Hcan;
      repeat split.
Qed.

(** A platform that supports the third candidate only. *)
Lemma mime_selection_witness :
  window_MediaRecorder w_mp4 = Some (mkCtor (Some (String.eqb "audio/mp4")))
  /\ candidates =
       (["audio/webm;codecs=opus"; "audio/webm"] ++ "audio/mp4" ::
        ["audio/ogg;codecs=opus"; "audio/ogg"; "audio/wav"])%list /\
  mimeType (App w_mp4) = "audio/mp4".
Proof.
  split; [reflexivity|]. split; [reflexivity|].
  refine (proj1 (mime_selection w_mp4) _
            ["audio/webm;codecs=opus"; "audio/webm"] "audio/mp4"
            ["audio/ogg;codecs=opus"; "audio/ogg"; "audio/wav"]
            eq_refl eq_refl _ eq_refl).
  intros x [<-|[<-|[]]]; reflexivity.
Defined.

(** C3 (counterexample). On a browser that has [MediaRecorder] and
    [getUserMedia] but supports none of the candidates, the memoised type
    is empty and recording is not disabled: [canRecord] holds, and a start
    attempt constructs a recorder (without a type option) that records. *)
Lemma no_supported_type_still_records :
  (forall t, In t candidates ->
             type_supported (mkCtor (Some (fun _ => false))) t = false) /\
  mimeType (App w_plain) = "" /\ canRecord w_plain = true /\
  isRecording (startRecording start_ok (App w_plain)) = true /\
  mediaRecorderRef (startRecording start_ok (App w_plain))
    = Some (mkRecorder recording None).
Proof. split; [reflexivity|]. vm_compute. repeat split. Qed.

(* ================================================================== *)
(** ** The waveform path *)









(* ================================================================== *)
(** ** Distinct durations, distinct texts *)

Lemma split_at_colon (a b x y : string) :
  digits_only a = true -> digits_only b = true ->
  a ++ String ":" x = b ++ String ":" y -> a = b /\ x = y.
Proof.
  revert b. induction a as [|c a IH]; intros [|c' b] Ha Hb H; simpl in *.
  - injection H as ->. split; reflexivity.
  - injection H as <- _. discriminate Hb.
  - injection H as -> _. discriminate Ha.
  - injection H as -> H.
    apply andb_true_iff in Ha as [_ Ha]. apply andb_true_iff in Hb as [_ Hb].
    destruct (IH b Ha Hb H) as [-> ->]. split; reflexivity.
Qed.

Lemma digit_char_inj (a b : Z) :
  (0 <= a < 10)%Z -> (0 <= b < 10)%Z -> digit_char a = digit_char b -> a = b.
Proof.
  unfold digit_char. intros Ha Hb H.
  apply (f_equal nat_of_ascii) in H.
  rewrite !nat_ascii_embedding in H by lia. lia.
Qed.

Lemma two_digits_inj (a b : Z) :
  (0 <= a < 60)%Z -> (0 <= b < 60)%Z -> two_digits a = two_digits b -> a = b.
Proof.
  unfold two_digits. intros Ha Hb H. injection H as H1 H2.
  apply digit_char_inj in H1;
    [|split; [apply Z.div_pos; lia | apply Z.div_lt_upper_bound; lia]..].
  apply digit_char_inj in H2; [|apply Z.mod_pos_bound; lia..].
  rewrite (Z.div_mod a 10), (Z.div_mod b 10) by lia. congruence.
Qed.

Lemma formatDuration_nonneg (q : Q) :
  (0 <= q)%Q ->
  formatDuration (Fin q) =
    Number_toString (Math_round q / 60) ++ ":" ++
    two_digits (Math_round q mod 60).
Proof.
  intros Hq. pose proof (Math_round_nonneg q Hq) as Ht.
  change (formatDuration (Fin q))
    with (Number_toString (Math_round q / 60) ++ ":" ++
          padStart 2 "0" (Number_toString (Z.rem (Math_round q) 60))).
  rewrite (Z.rem_mod_nonneg (Math_round q) 60) by lia.
  rewrite pad_seconds by (apply Z.mod_pos_bound; lia). reflexivity.
Qed.

(** X2. Two finite durations that are not negative are rendered by
    [formatDuration] as the same text exactly when they round to the same
    number of seconds: the text determines the rounded duration. *)
Theorem formatDuration_same_text (q1 q2 : Q) :
  (0 <= q1)%Q -> (0 <= q2)%Q ->
  (formatDuration (Fin q1) = formatDuration (Fin q2) <->
   Math_round q1 = Math_round q2).
Proof.
  intros H1 H2. rewrite !formatDuration_nonneg by assumption.
  pose proof (Math_round_nonneg q1 H1) as Ht1.
  pose proof (Math_round_nonneg q2 H2) as Ht2.
  split; [|intros ->; reflexivity].
  intros H. apply split_at_colon in H as [Hm Hs].
  - apply Number_toString_inj in Hm.
    apply two_digits_inj in Hs; [|apply Z.mod_pos_bound; lia..].
    rewrite (Z.div_mod (Math_round q1) 60), (Z.div_mod (Math_round q2) 60)
      by lia. congruence.
  - apply digits_of_nonneg. apply Z.div_pos; lia.
  - apply digits_of_nonneg. apply Z.div_pos; lia.
Qed.

(** 59.6 and 60 seconds read alike. *)
Lemma formatDuration_same_text_witness :
  (0 <= 596 # 10)%Q /\ (0 <= 60)%Q /\
  formatDuration (Fin (596 # 10)) = formatDuration (Fin 60).
Proof.
  assert (H1 : (0 <= 596 # 10)%Q) by discriminate.
  assert (H2 : (0 <= 60)%Q) by discriminate.
  split; [exact H1|]. split; [exact H2|].
  apply (proj2 (formatDuration_same_text _ _ H1 H2)). reflexivity.
Defined.

(* ================================================================== *)
(** ** The memoised type, read backwards *)

Lemma first_supported_cases (ctor : RecorderCtor) (l : list string) :
  (first_supported ctor l = "" /\
   forall x, In x l -> nonempty x = true -> type_supported ctor x = false) \/
  (In (first_supported ctor l) l /\
   type_supported ctor (first_supported ctor l) = true).
Proof.
  induction l as [|a l IH]; simpl.
  - left. split; [reflexivity|]. intros x [].
  - destruct (type_supported ctor a) eqn:Ha.
    + right. split; [left; reflexivity | exact Ha].
    + destruct IH as [[E Hn]|[Hin Hs]].
      * left. split; [exact E|]. intros x [<-|Hx] Hne; [exact Ha|auto].
      * right. split; [right; exact Hin | exact Hs].
Qed.

Lemma candidates_nonempty (x : string) : In x candidates -> nonempty x = true.
Proof.
  unfold candidates. simpl.
  intros [<-|[<-|[<-|[<-|[<-|[<-|[]]]]]]]; reflexivity.
Qed.

(** X3. The memoised type of a component is either empty or one of the
    candidates, and then one the recorder reports as supported; it is empty
    exactly when there is no [MediaRecorder] or none of the candidates is
    supported. *)
Theorem mime_is_supported_candidate (w : Platform) :
  (mimeType (App w) <> "" ->
   exists ctor,
     window_MediaRecorder w = Some ctor /\
     In (mimeType (App w)) candidates /\
     type_supported ctor (mimeType (App w)) = true) /\
  (mimeType (App w) = "" <->
   forall ctor, window_MediaRecorder w = Some ctor ->
     forall x, In x candidates -> type_supported ctor x = false).
Proof.
  simpl. unfold supportsMediaRecorder, pickBestAudioMime.
  destruct (window_MediaRecorder w) as [ctor|].
  - destruct (first_supported_cases ctor candidates) as [[E Hn]|[Hin Hs]].
    + rewrite E. split; [intros H; congruence|].
      split; [|reflexivity]. intros _ c [= <-] x Hx.
      apply Hn; [exact Hx | apply candidates_nonempty; exact Hx].
    + split; [intros _; exists ctor; auto|].
      split.
      * intros E c [= <-] x Hx. rewrite E in Hin.
        apply candidates_nonempty in Hin. discriminate Hin.
      * intros Hall. rewrite (Hall ctor eq_refl _ Hin) in Hs. discriminate Hs.
  - split; [intros H; congruence|]. split; [|reflexivity].
    intros _ c Hc. discriminate Hc.
Qed.

(** A platform whose recorder supports the third candidate is not left
    without a type. *)
Lemma mime_is_supported_candidate_witness :
  mimeType (App w_mp4) <> "" /\
  In (mimeType (App w_mp4)) candidates.
Proof.
  assert (H : mimeType (App w_mp4) <> "") by discriminate.
  split; [exact H|].
  destruct (proj1 (mime_is_supported_candidate w_mp4) H) as (c & _ & Hin & _).
  exact Hin.
Defined.

(* ================================================================== *)
(** ** Starting a recording: the microphone *)

Lemma count_effects_app (p : Effect -> bool) (a b : list Effect) :
  count_effects p (a ++ b) = (count_effects p a + count_effects p b)%nat.
Proof. unfold count_effects. rewrite List.filter_app, length_app. reflexivity. Qed.

(** X4. On a browser that can record, with no stream held, a refused
    microphone request leaves the session as idle as it was: one
    [getUserMedia] request is made, the permission becomes ['denied'] and
    the message says so; no recorder is constructed, and the recordings
    list and the playback slot are unchanged. *)
Theorem start_denied (env : StartEnv) (s : State) :
  canRecord (start_window env) = true ->
  mediaStreamRef s = None -> start_gum env = None ->
  let s' := startRecording env s in
  permission s' = denied /\
  error s' = "Microphone permission denied or unavailable." /\
  trace s' = (trace s ++ [EGetUserMedia])%list /\
  isRecording s' = isRecording s /\
  mediaRecorderRef s' = mediaRecorderRef s /\
  mediaStreamRef s' = None /\
  recordings s' = recordings s /\
  activeId s' = activeId s /\ isPlaying s' = isPlaying s /\
  playProgress s' = playProgress s.
Proof.
  intros Hcan Hst Hg. cbv zeta.
  open_start_env env; open_start s; exec; try discriminate Hcan;
    try discriminate Hst; try discriminate Hg; repeat split.
Qed.

(** A refusal on a freshly constructed component. *)
Lemma start_denied_witness :
  canRecord w_plain = true /\ mediaStreamRef (App w_plain) = None /\
  permission
    (startRecording (mkStartEnv w_plain None NoFault false 1%positive)
       (App w_plain)) = denied.
Proof.
  split; [reflexivity|]. split; [reflexivity|].
  exact (proj1 (start_denied (mkStartEnv w_plain None NoFault false 1%positive)
                  (App w_plain) eq_refl eq_refl eq_refl)).
Defined.

(** X5. When the [try] block of [startRecording] throws, the session does
    not become recording and the message is ['Unable to start recording.'],
    but nothing acquired so far is released: the microphone stream stays in
    [mediaStreamRef] with its tracks running, a recorder constructed before
    the exception stays in [mediaRecorderRef] (inactive), and when it is
    [recorder.start] that throws, the live visualizer stays attached. *)
Theorem start_fault_keeps_resources (env : StartEnv) (s : State)
  (st : MediaStream) :
  canRecord (start_window env) = true ->
  mediaStreamRef s = Some st \/
    (mediaStreamRef s = None /\ start_gum env = Some st) ->
  start_fault env <> NoFault ->
  let s' := startRecording env s in
  let options := if nonempty (mimeType s) then Some (mimeType s) else None in
  isRecording s' = isRecording s /\
  error s' = "Unable to start recording." /\
  recordings s' = recordings s /\
  mediaStreamRef s' = Some st /\
  count_effects is_track_stop (trace s')
    = count_effects is_track_stop (trace s) /\
  (start_fault env = CtorThrows -> mediaRecorderRef s' = mediaRecorderRef s) /\
  (start_fault env <> CtorThrows ->
   mediaRecorderRef s' = Some (mkRecorder inactive options)) /\
  (start_fault env = StartThrows ->
   sourceNodeRef s' = Some (StreamSource st) /\
   rafIdRef s' = Some (start_frame env)).
Proof.
  intros Hcan Hst Hfault. cbv zeta.
  open_start_env env; open_start s; exec; try discriminate Hcan;
    try (exfalso; apply Hfault; reflexivity);
    destruct Hst as [Hst|[Hst Hg]]; try discriminate Hst;
    try discriminate Hg;
    try (injection Hst as <-); try (injection Hg as <-);
    (split; [reflexivity|]); (split; [reflexivity|]);
    (split; [reflexivity|]); (split; [reflexivity|]);
    (split; [rewrite ?count_effects_app; unfold count_effects; simpl; lia|]);
    repeat split; intros; try reflexivity; congruence.
Qed.

(** A start whose [recorder.start] throws, on a fresh component. *)
Lemma start_fault_keeps_resources_witness :
  canRecord w_plain = true /\
  mediaStreamRef (App w_plain) = None /\
  StartThrows <> NoFault /\
  mediaStreamRef
    (startRecording
       (mkStartEnv w_plain (Some (Stream 0)) StartThrows false 1%positive)
       (App w_plain)) = Some (Stream 0).
Proof.
  assert (H : StartThrows <> NoFault) by discriminate.
  split; [reflexivity|]. split; [reflexivity|]. split; [exact H|].
  exact (proj1 (proj2 (proj2 (proj2
    (start_fault_keeps_resources
       (mkStartEnv w_plain (Some (Stream 0)) StartThrows false 1%positive)
       (App w_plain) (Stream 0) eq_refl
       (or_intror (conj eq_refl eq_refl)) H))))).
Defined.

Lemma stop_releases_stream (stop : StopEnv) (s : State) :
  recorder_active s = true -> mediaStreamRef (stop_session stop s) = None.
Proof.
  intros Ha. unfold stop_session. rewrite Ha.
  open_stop_env stop; open_stop s; exec; try discriminate Ha; reflexivity.
Qed.

Ltac count_requests :=
  rewrite ?count_effects_app; unfold count_effects; simpl; lia.

(** X6. [startRecording] asks for the microphone only when no stream is
    held: with a stream in [mediaStreamRef] it makes no [getUserMedia]
    request and leaves the permission as it is, whatever else happens.  A
    stop releases the stream, so the start that follows a stop, on a
    browser that can record, makes exactly one request. *)
Theorem microphone_requested_when_needed (env : StartEnv) (s : State) :
  (forall st, mediaStreamRef s = Some st ->
     count_effects is_mic_request (trace (startRecording env s))
       = count_effects is_mic_request (trace s) /\
     permission (startRecording env s) = permission s) /\
  (mediaStreamRef s = None -> canRecord (start_window env) = true ->
   count_effects is_mic_request (trace (startRecording env s))
     = S (count_effects is_mic_request (trace s))) /\
  (forall stop prev, recorder_active prev = true ->
     s = stop_session stop prev -> mediaStreamRef s = None).
Proof.
  split; [|split].
  - intros st Hst.
    open_start_env env; open_start s; exec; try discriminate Hst;
      (split; [|reflexivity]); count_requests.
  - intros Hst Hcan.
    open_start_env env; open_start s; exec; try discriminate Hst;
      try discriminate Hcan; count_requests.
  - intros stop prev Ha ->. apply stop_releases_stream. exact Ha.
Qed.

(** The start after the first stop of the example session. *)
Lemma microphone_requested_when_needed_witness :
  mediaStreamRef session_one = None /\
  canRecord (start_window start_ok) = true /\
  count_effects is_mic_request (trace (startRecording start_ok session_one))
    = 2%nat.
Proof.
  assert (H1 : mediaStreamRef session_one = None)
    by (vm_compute; reflexivity).
  split; [exact H1|]. split; [reflexivity|].
  rewrite (proj1 (proj2 (microphone_requested_when_needed start_ok
                           session_one)) H1 eq_refl).
  vm_compute. reflexivity.
Defined.

(* ================================================================== *)
(** ** From chunks to blob *)

Lemma ondataavailable_chunks (d : option Chunk) (s : State) :
  recordedChunksRef (ondataavailable d s)
    = (recordedChunksRef s ++ kept_chunks [d])%list /\
  recordings (ondataavailable d s) = recordings s /\
  mediaRecorderRef (ondataavailable d s) = mediaRecorderRef s /\
  mimeType (ondataavailable d s) = mimeType s.
Proof.
  unfold ondataavailable. destruct d as [d|]; simpl.
  - destruct (0 <? String.length d)%nat; simpl; repeat split.
    symmetry. apply app_nil_r.
  - repeat split. symmetry. apply app_nil_r.
Qed.

Lemma kept_chunks_cons (d : option Chunk) (ds : list (option Chunk)) :
  kept_chunks (d :: ds) = (kept_chunks [d] ++ kept_chunks ds)%list.
Proof.
  destruct d as [d|]; simpl; [|reflexivity].
  destruct (0 <? String.length d)%nat; reflexivity.
Qed.

Lemma run_data_chunks (ds : list (option Chunk)) :
  forall s,
    recordedChunksRef (run (map RecorderData ds) s)
      = (recordedChunksRef s ++ kept_chunks ds)%list /\
    recordings (run (map RecorderData ds) s) = recordings s /\
    mediaRecorderRef (run (map RecorderData ds) s) = mediaRecorderRef s /\
    mimeType (run (map RecorderData ds) s) = mimeType s.
Proof.
  induction ds as [|d ds IH]; intros s.
  - simpl. repeat split. symmetry. apply app_nil_r.
  - change (run (map RecorderData (d :: ds)) s)
      with (run (map RecorderData ds) (ondataavailable d s)).
    destruct (IH (ondataavailable d s)) as (I1 & I2 & I3 & I4).
    destruct (ondataavailable_chunks d s) as (D1 & D2 & D3 & D4).
    rewrite I1, I2, I3, I4, D1, D2, D3, D4, (kept_chunks_cons d ds).
    repeat split. symmetry. apply app_assoc.
Qed.

Lemma start_succeeds (env : StartEnv) (s : State) (st : MediaStream) :
  canRecord (start_window env) = true ->
  mediaStreamRef s = Some st \/
    (mediaStreamRef s = None /\ start_gum env = Some st) ->
  start_fault env = NoFault ->
  recorder_active (startRecording env s) = true /\
  recordedChunksRef (startRecording env s) = [] /\
  recordings (startRecording env s) = recordings s /\
  mimeType (startRecording env s) = mimeType s.
Proof.
  intros Hcan Hst Hfault.
  open_start_env env; open_start s; exec; try discriminate Hcan;
    try discriminate Hfault;
    destruct Hst as [Hst|[Hst Hg]]; try discriminate Hst;
    try discriminate Hg; repeat split.
Qed.

Lemma stop_succeeds (env : StopEnv) (s : State) :
  recorder_active s = true -> processing_throws env = false ->
  exists r,
    recordings (stop_session env s) = r :: recordings s /\
    Recording.blob r =
      mkBlob (recordedChunksRef s)
        (if nonempty (mimeType s) then mimeType s else "audio/webm").
Proof.
  intros Ha Hok. unfold stop_session. rewrite Ha.
  open_stop_env env; open_stop s; exec; try discriminate Ha;
    try discriminate Hok; eexists; split; reflexivity.
Qed.

(** X7. The blob of a recording holds the chunks delivered between its
    start and its stop, and nothing else: [startRecording] empties the
    chunk buffer, whatever an earlier recording left in it, every
    [dataavailable] event appends its data unless the data is missing or
    empty, and the stop assembles the buffer in arrival order. *)
Theorem recorded_blob_parts (env : StartEnv) (stop : StopEnv)
  (ds : list (option Chunk)) (s : State) (st : MediaStream) :
  canRecord (start_window env) = true ->
  mediaStreamRef s = Some st \/
    (mediaStreamRef s = None /\ start_gum env = Some st) ->
  start_fault env = NoFault ->
  processing_throws stop = false ->
  let s1 := startRecording env s in
  let s2 := run (map RecorderData ds) s1 in
  let s3 := stop_session stop s2 in
  exists r,
    recordings s3 = r :: recordings s /\
    blob_parts (Recording.blob r) = kept_chunks ds.
Proof.
  intros Hcan Hst Hfault Hok s1 s2 s3.
  destruct (start_succeeds env s st Hcan Hst Hfault) as (A1 & A2 & A3 & A4).
  fold s1 in A1, A2, A3, A4.
  destruct (run_data_chunks ds s1) as (B1 & B2 & B3 & B4).
  fold s2 in B1, B2, B3, B4.
  assert (Ha : recorder_active s2 = true).
  { unfold recorder_active in *. rewrite B3. exact A1. }
  destruct (stop_succeeds stop s2 Ha Hok) as (r & Hr & Hb).
  fold s3 in Hr. exists r. split.
  - rewrite Hr, B2, A3. reflexivity.
  - rewrite Hb, B1, A2. reflexivity.
Qed.

(** A recording of three data events, one of them empty. *)
Lemma recorded_blob_parts_witness :
  canRecord (start_window start_ok) = true /\
  mediaStreamRef session_one = None /\ start_gum start_ok = Some (Stream 0) /\
  start_fault start_ok = NoFault /\
  processing_throws (stop_ok "blob:b" 2000) = false /\
  exists r,
    recordings
      (stop_session (stop_ok "blob:b" 2000)
         (run (map RecorderData [Some "ab"; Some ""; Some "cd"])
            (startRecording start_ok session_one)))
    = r :: recordings session_one /\
    blob_parts (Recording.blob r) = ["ab"; "cd"].
Proof.
  assert (H : mediaStreamRef session_one = None) by (vm_compute; reflexivity).
  split; [reflexivity|]. split; [exact H|]. split; [reflexivity|].
  split; [reflexivity|]. split; [reflexivity|].
  exact (recorded_blob_parts start_ok (stop_ok "blob:b" 2000)
           [Some "ab"; Some ""; Some "cd"] session_one (Stream 0)
           eq_refl (or_intror (conj H eq_refl)) eq_refl eq_refl).
Defined.

(* ================================================================== *)
(** ** One audio context *)

Lemma step_one_context (e : Event) (s : State) :
  count_effects is_new_context (trace s)
    = match audioContextRef s with Some _ => 1 | None => 0 end%nat ->
  count_effects is_new_context (trace (step e s))
    = match audioContextRef (step e s) with Some _ => 1 | None => 0 end%nat.
Proof.
  intros Hs.
  step_cases e s
    ltac:(rewrite ?count_effects_app; unfold count_effects in *; simpl;
          first [exact Hs | lia]).
Qed.

Lemma step_context_kept (e : Event) (s : State) :
  audioContextRef s = Some Ctx -> audioContextRef (step e s) = Some Ctx.
Proof.
  intros Hs.
  step_cases e s ltac:(first [exact Hs | reflexivity | discriminate Hs]).
Qed.

Lemma run_context_kept (es : list Event) :
  forall s, audioContextRef s = Some Ctx ->
            audioContextRef (run es s) = Some Ctx.
Proof.
  induction es as [|e es IH]; intros s Hs; simpl; [exact Hs|].
  apply IH, step_context_kept, Hs.
Qed.

(** X8. However the component is used, it constructs at most one audio
    context: the context is made the first time a visualizer needs it, it
    is in [audioContextRef] exactly when one has been made, and once there
    it is kept and reused by every later operation. *)
Theorem one_audio_context (w : Platform) (es es' : list Event) :
  let s := run es (App w) in
  (count_effects is_new_context (trace s) <= 1)%nat /\
  (audioContextRef s = Some Ctx <->
   count_effects is_new_context (trace s) = 1%nat) /\
  (audioContextRef s = Some Ctx ->
   audioContextRef (run es' s) = Some Ctx /\
   count_effects is_new_context (trace (run es' s)) = 1%nat).
Proof.
  assert (Inv : forall es s,
    count_effects is_new_context (trace s)
      = match audioContextRef s with Some _ => 1 | None => 0 end%nat ->
    count_effects is_new_context (trace (run es s))
      = match audioContextRef (run es s) with Some _ => 1 | None => 0 end%nat).
  { clear. intros es. induction es as [|e es IH]; intros s Hs; simpl;
      [exact Hs|]. apply IH, step_one_context, Hs. }
  intros s.
  assert (Hs : count_effects is_new_context (trace s)
               = match audioContextRef s with Some _ => 1 | None => 0 end%nat)
    by (apply Inv; reflexivity).
  split; [|split].
  - rewrite Hs. destruct (audioContextRef s); lia.
  - rewrite Hs. destruct (audioContextRef s) as [[]|]; split; intros H;
      try reflexivity; discriminate H.
  - intros Hc. pose proof (run_context_kept es' s Hc) as Hk.
    split; [exact Hk|]. rewrite (Inv es' s Hs), Hk. reflexivity.
Qed.

(** The example playback has made its context. *)
Lemma one_audio_context_witness :
  audioContextRef (run events_playing (App w_plain)) = Some Ctx /\
  audioContextRef
    (run [CallOnPlay play_ok "1000-k3x9q"]
       (run events_playing (App w_plain))) = Some Ctx.
Proof.
  assert (H : audioContextRef (run events_playing (App w_plain)) = Some Ctx)
    by (vm_compute; reflexivity).
  split; [exact H|].
  exact (proj1 (proj2 (proj2
    (one_audio_context w_plain events_playing
       [CallOnPlay play_ok "1000-k3x9q"])) H)).
Defined.

(* ================================================================== *)
(** ** What every stored recording satisfies *)

Lemma Forall_filter_keep {A : Type} (P : A -> Prop) (f : A -> bool)
  (l : list A) : Forall P l -> Forall P (List.filter f l).
Proof.
  induction 1 as [|a l Ha Hl IH]; simpl; [constructor|].
  destruct (f a); [constructor; assumption | exact IH].
Qed.

Lemma step_stored (m : string) (e : Event) (s : State) :
  mimeType s = m ->
  Forall (fun r =>
            isFinite (Recording.duration r) = true /\
            blob_type (Recording.blob r)
              = if nonempty m then m else "audio/webm")
    (recordings s) ->
  Forall (fun r =>
            isFinite (Recording.duration r) = true /\
            blob_type (Recording.blob r)
              = if nonempty m then m else "audio/webm")
    (recordings (step e s)).
Proof.
  intros Hm Hs.
  step_cases e s
    ltac:(first
      [ exact Hs
      | apply Forall_filter_keep; exact Hs
      | constructor; [|exact Hs]; subst m; simpl; split; [|reflexivity];
        try reflexivity;
        match goal with |- context [isFinite ?x] => is_var x; destruct x end;
        reflexivity ]).
Qed.

(** X9. Every recording the store can hold has a finite duration, so that
    [formatDuration] never takes its branch for non-finite numbers on a
    stored recording, and carries a blob of the type chosen when the
    component was constructed: the memoised type, or ['audio/webm'] when
    that is empty. *)
Theorem stored_recordings_wellformed (w : Platform) (es : list Event) :
  Forall (fun r =>
            isFinite (Recording.duration r) = true /\
            blob_type (Recording.blob r) = session_blob_type w)
    (recordings (run es (App w))).
Proof.
  unfold session_blob_type.
  assert (H0 : mimeType (App w) = mimeType (App w)) by reflexivity.
  assert (H1 : Forall (fun r =>
            isFinite (Recording.duration r) = true /\
            blob_type (Recording.blob r)
              = if nonempty (mimeType (App w)) then mimeType (App w)
                else "audio/webm") (recordings (App w))) by constructor.
  revert H0 H1. generalize (mimeType (App w)) at 2 3 4 5 6.
  generalize (App w).
  induction es as [|e es IH]; intros s m Hm Hs; simpl; [exact Hs|].
  apply IH; [rewrite step_mimeType; exact Hm|].
  apply step_stored; assumption.
Qed.

(* ================================================================== *)
(** ** The visualizer follows the slot *)

Ltac slot_step Hs :=
  first
    [ exact Hs
    | destruct Hs as (Hs1 & Hs2 & Hs3);
      repeat split; intros;
      repeat match goal with
        | H : Some _ = Some _ |- _ => injection H as H; try subst
        | H : None = Some _ |- _ => discriminate H
        | H : Some _ = None |- _ => discriminate H
        end;
      repeat first [rewrite length_app | rewrite length_alter
                   | rewrite length_insert]; simpl;
      try reflexivity;
      first [ eexists; split; reflexivity
            | solve [eauto]
            | apply Hs3; assumption
            | (match goal with
               | H : forall j, Some ?i = Some j -> _ |- _ =>
                   pose proof (H i eq_refl)
               end; lia)
            | lia
            | solve [intuition congruence] ] ].

Lemma step_visualizer_on_slot (e : Event) (s : State) :
  visualizer_on_slot s -> visualizer_on_slot (step e s).
Proof.
  unfold visualizer_on_slot. intros Hs.
  step_cases e s ltac:(slot_step Hs).
Qed.

(** X10. In every state the component can reach, [playbackAudioRef] points
    at an element that exists, the playback visualizer, when attached, is
    attached to that element and to no other, and its frame loop runs
    exactly while its source node is connected. *)
Theorem visualizer_follows_slot (w : Platform) (es : list Event) :
  visualizer_on_slot (run es (App w)).
Proof.
  assert (H0 : visualizer_on_slot (App w)).
  { repeat split; intros; discriminate. }
  revert H0. generalize (App w).
  induction es as [|e es IH]; intros s Hs; simpl; [exact Hs|].
  apply IH, step_visualizer_on_slot, Hs.
Qed.

(* ================================================================== *)
(** ** Deleting what is not there, playing what was deleted *)

Lemma filter_absent (id : string) (l : list Recording.t) :
  ~ In id (map Recording.id l) ->
  List.filter (fun r => negb (String.eqb (Recording.id r) id)) l = l.
Proof.
  intros Hn. apply filter_keep_all. intros r Hr.
  apply negb_true_iff, String.eqb_neq. intros E. apply Hn. rewrite <- E.
  apply in_map. exact Hr.
Qed.


(** X11. [onDelete] on an id that no stored recording has and that is not
    the active one changes nothing at all: no entry is removed, no URL is
    revoked, and the playback slot, the elements and the visualizer are as
    before. *)
Theorem delete_absent_is_noop (id : string) (s : State) :
  ~ In id (map Recording.id (recordings s)) ->
  activeId s <> Some id ->
  onDelete id s = s.
Proof.
  intros Hn Ha. pose proof (filter_absent id _ Hn) as Hf.
  apply find_recording_absent in Hn.
  unfold onDelete. rewrite Hn.
  open_state s; exec; rewrite Hf.
  destruct actId as [a|]; [|reflexivity].
  destruct (String.eqb a id) eqn:E; [|reflexivity].
  apply String.eqb_eq in E. congruence.
Qed.

(** Deleting an unknown id in the example session. *)
Lemma delete_absent_is_noop_witness :
  ~ In "absent" (map Recording.id (recordings session_playing)) /\
  activeId session_playing <> Some "absent" /\
  onDelete "absent" session_playing = session_playing.
Proof.
  assert (H1 : ~ In "absent" (map Recording.id (recordings session_playing))).
  { vm_compute. intros [H|[]]. discriminate H. }
  assert (H2 : activeId session_playing <> Some "absent")
    by (vm_compute; discriminate).
  split; [exact H1|]. split; [exact H2|].
  exact (delete_absent_is_noop "absent" session_playing H1 H2).
Defined.





(* ================================================================== *)
(** ** The end of playback *)

Lemma ended_fields (i : nat) (el : Audio.t) (s : State) :
  audios s !! i = Some el ->
  let s1 := step (MediaEnded i) s in
  isPlaying s1 = false /\ playProgress s1 = num 100 /\
  activeId s1 = activeId s /\ recordings s1 = recordings s /\
  playbackAudioRef s1 = playbackAudioRef s /\
  audios s1 = alter el_pause i (audios s) /\
  visualizer_detached s1.
Proof.
  intros Hi. cbv zeta. unfold visualizer_detached.
  open_visualizer s; exec; rewrite Hi; exec; repeat split.
Qed.

(** X13. When an element reports that playback has ended, the slot keeps
    its id while [isPlaying] becomes false, progress becomes 100 and the
    visualizer is detached; the status text is then ['Paused'] and the row
    of the recording offers ['Play'] again.  An [onPlay] on that id does
    not continue the finished element: it sets progress back to 0 and
    plays a new element for the recording from position 0. *)
Theorem ended_then_replay (env : PlayEnv) (id : string) (i : nat)
  (el : Audio.t) (rec : Recording.t) (s : State) :
  audios s !! i = Some el -> activeId s = Some id -> nonempty id = true ->
  find_recording id (recordings s) = Some rec ->
  let s1 := step (MediaEnded i) s in
  let s2 := onPlay env id s1 in
  (isPlaying s1 = false /\ playProgress s1 = num 100 /\
   activeId s1 = Some id /\ visualizer_detached s1 /\
   status_label s1 = "Paused" /\ row_label s1 rec = "Play") /\
  (activeId s2 = Some id /\ playProgress s2 = num 0 /\
   playbackAudioRef s2 = Some (List.length (audios s)) /\
   audios s2 !! List.length (audios s) =
     Some (Audio.mk (Recording.url rec) (play_rejected env) (num 0) NaN)).
Proof.
  intros Hi Ha Hne Hf s1 s2.
  destruct (ended_fields i el s Hi) as (E1 & E2 & E3 & E4 & E5 & E6 & E7).
  fold s1 in E1, E2, E3, E4, E5, E6, E7.
  split.
  - split; [exact E1|]. split; [exact E2|]. split; [congruence|].
    split; [exact E7|]. unfold status_label, row_label.
    rewrite E1, E3, Ha, Hne, andb_false_r. split; reflexivity.
  - assert (Ht : activeId_is id s1 && isPlaying s1 = false)
      by (rewrite E1; apply andb_false_r).
    assert (Hf1 : find_recording id (recordings s1) = Some rec)
      by (rewrite E4; exact Hf).
    destruct (onPlay_switch env id rec s1 Ht Hf1)
      as (A & P & _ & _ & R & N & _).
    fold s2 in A, P, R, N. rewrite E6, length_alter in R, N.
    repeat split; assumption.
Qed.

(** The example playback runs to its end and is started again. *)
Lemma ended_then_replay_witness :
  audios session_playing !! 0%nat
    = Some (Audio.mk "blob:a" false (num 1) (num 2)) /\
  activeId session_playing = Some "1000-k3x9q" /\
  nonempty "1000-k3x9q" = true /\
  find_recording "1000-k3x9q" (recordings session_playing)
    = Some recording_one /\
  playProgress (step (MediaEnded 0) session_playing) = num 100.
Proof.
  assert (H1 : audios session_playing !! 0%nat
               = Some (Audio.mk "blob:a" false (num 1) (num 2)))
    by (vm_compute; reflexivity).
  assert (H2 : activeId session_playing = Some "1000-k3x9q")
    by (vm_compute; reflexivity).
  assert (H4 : find_recording "1000-k3x9q" (recordings session_playing)
               = Some recording_one) by (vm_compute; reflexivity).
  split; [exact H1|]. split; [exact H2|]. split; [reflexivity|].
  split; [exact H4|].
  exact (proj1 (proj2 (proj1
    (ended_then_replay play_ok _ _ _ _ session_playing H1 H2 eq_refl H4)))).
Defined.

(* ================================================================== *)
(** ** At most one pause button *)

Lemma filter_drop_all {A : Type} (f : A -> bool) (l : list A) :
  (forall x, In x l -> f x = false) -> List.filter f l = [].
Proof.
  induction l as [|a l IH]; simpl; intros H; [reflexivity|].
  rewrite (H a) by tauto. apply IH. intros x Hx. apply H. tauto.
Qed.

Lemma pause_rows (b : Recording.t -> bool) (l : list Recording.t) :
  List.NoDup (map Recording.id l) ->
  (forall r r', b r = true -> b r' = true ->
                Recording.id r = Recording.id r') ->
  (List.length (List.filter b l) <= 1)%nat.
Proof.
  intros Hnd Hb. induction l as [|r l IH]; simpl; [lia|].
  inversion Hnd as [|x xs Hx Hl]; subst.
  destruct (b r) eqn:E; [|auto]. simpl.
  rewrite filter_drop_all; [simpl; lia|].
  intros y Hy. destruct (b y) eqn:Ey; [|reflexivity].
  exfalso. apply Hx. rewrite (Hb r y E Ey). apply in_map. exact Hy.
Qed.

Lemma pause_labels (b : Recording.t -> bool) (l : list Recording.t) :
  List.filter (String.eqb "Pause")
    (map (fun r => if b r then "Pause" else "Play") l)
  = map (fun _ => "Pause") (List.filter b l).
Proof.
  induction l as [|r l IH]; [reflexivity|].
  cbn [map List.filter]. destruct (b r).
  - rewrite String.eqb_refl, IH. reflexivity.
  - change (String.eqb "Pause" "Play") with false. exact IH.
Qed.

(** X14. The rows of the list offer ['Pause'] on at most one recording when
    the ids are distinct, and on exactly one when the active id is stored
    and playing; while nothing plays every row offers ['Play'].  A row that
    offers ['Pause'] goes with the status text ['Playing']. *)
Theorem one_pause_button (s : State) :
  (isPlaying s = false -> Forall (eq "Play") (row_labels s)) /\
  (List.NoDup (map Recording.id (recordings s)) ->
   (List.length (List.filter (String.eqb "Pause") (row_labels s)) <= 1)%nat)
  /\
  (forall id, List.NoDup (map Recording.id (recordings s)) ->
     activeId s = Some id -> isPlaying s = true ->
     In id (map Recording.id (recordings s)) ->
     List.length (List.filter (String.eqb "Pause") (row_labels s)) = 1%nat)
  /\
  (In "Pause" (row_labels s) -> status_label s = "Playing").
Proof.
  unfold row_labels, row_label, status_label.
  assert (Hle : List.NoDup (map Recording.id (recordings s)) ->
    (List.length
       (List.filter
          (fun r => activeId_is (Recording.id r) s && isPlaying s)
          (recordings s)) <= 1)%nat).
  { intros Hnd. apply pause_rows; [exact Hnd|].
    intros r r' Hr Hr'.
    apply andb_true_iff in Hr as [Hr _]. apply andb_true_iff in Hr' as [Hr' _].
    apply activeId_is_true in Hr, Hr'. congruence. }
  split; [|split; [|split]].
  - intros ->. apply Forall_forall. intros x Hx. apply in_map_iff in Hx.
    destruct Hx as (r & <- & _). rewrite andb_false_r. reflexivity.
  - intros Hnd. rewrite pause_labels, length_map. apply Hle. exact Hnd.
  - intros id Hnd Ha Hp Hin. rewrite pause_labels, length_map.
    specialize (Hle Hnd).
    apply in_map_iff in Hin. destruct Hin as (r & Hr & Hin).
    assert (Hr' : In r
      (List.filter
         (fun r => activeId_is (Recording.id r) s && isPlaying s)
         (recordings s))).
    { apply filter_In. split; [exact Hin|]. unfold activeId_is.
      rewrite Ha, Hp, Hr, String.eqb_refl. reflexivity. }
    destruct (List.filter _ (recordings s)); [destruct Hr'|].
    simpl in *. lia.
  - intros Hin. apply in_map_iff in Hin. destruct Hin as (r & Hr & _).
    destruct (isPlaying s); [reflexivity|].
    rewrite andb_false_r in Hr. discriminate Hr.
Qed.

(** The rows of the example playback. *)
Lemma one_pause_button_witness :
  List.NoDup (map Recording.id (recordings session_playing)) /\
  (List.length (List.filter (String.eqb "Pause")
                  (row_labels session_playing)) <= 1)%nat.
Proof.
  assert (H : List.NoDup (map Recording.id (recordings session_playing))).
  { vm_compute. constructor; [intros []|constructor]. }
  split; [exact H|].
  exact (proj1 (proj2 (one_pause_button session_playing)) H).
Defined.

(* ================================================================== *)
(** ** Calls that repeat *)

(** X15. Releasing twice releases once: a second call of
    [cleanupRecordingResources], of [cleanupPlaybackResources] or of
    [stopRecording] right after the first finds the refs cleared (or the
    recorder inactive), makes no request and changes nothing. *)
Theorem repeated_calls_are_silent (s : State) :
  cleanupRecordingResources (cleanupRecordingResources s)
    = cleanupRecordingResources s /\
  cleanupPlaybackResources (cleanupPlaybackResources s)
    = cleanupPlaybackResources s /\
  stopRecording (stopRecording s) = stopRecording s /\
  (count_effects is_recorder_stop (trace (stopRecording (stopRecording s)))
   <= S (count_effects is_recorder_stop (trace s)))%nat.
Proof.
  split; [|split; [|split]].
  - open_stop s; exec; reflexivity.
  - open_visualizer s; exec; reflexivity.
  - open_recorder s; exec; reflexivity.
  - open_recorder s; exec; rewrite ?count_effects_app;
      unfold count_effects; simpl; lia.
Qed.

(* ================================================================== *)
(** ** Playback when the browser refuses *)

(** X16. Starting a stored recording asks the new element to play whether
    or not the visualizer could be attached: a failure to attach it is
    ignored and only leaves the visualizer refs empty, otherwise an
    analyser of 1024 points with a buffer of 512 samples is attached to the
    new element.  If the browser refuses to play, the message is ['Unable
    to play audio.'] and the element stays paused, but the slot still names
    the recording and the visualizer stays attached; if it accepts, the
    element plays and the message is left as it was. *)
Theorem playback_and_visualizer (env : PlayEnv) (id : string)
  (rec : Recording.t) (s : State) :
  activeId_is id s && isPlaying s = false ->
  find_recording id (recordings s) = Some rec ->
  let s' := onPlay env id s in
  let j := List.length (audios s) in
  In (EAudioPlay j) (trace s') /\ activeId s' = Some id /\
  isPlaying s' = isPlaying s /\
  audios s' !! j =
    Some (Audio.mk (Recording.url rec) (play_rejected env) (num 0) NaN) /\
  error s' = (if play_rejected env then "Unable to play audio." else error s)
  /\
  (play_analyserThrows env = true ->
   playbackSourceRef s' = None /\ playbackRafIdRef s' = None /\
   playbackAnalyserRef s' = None /\ playbackDataArrayRef s' = None) /\
  (play_analyserThrows env = false ->
   playbackSourceRef s' = Some (ElementSource j) /\
   playbackRafIdRef s' = Some (play_frame env) /\
   playbackAnalyserRef s' = Some (mkAnalyser 1024) /\
   playbackDataArrayRef s' = Some 512%nat).
Proof.
  intros Ht Hf. cbv zeta. unfold onPlay. rewrite Ht.
  open_play_env env; open_play s; exec; rewrite Hf; exec;
    rewrite ?length_alter;
    (split; [rewrite !in_app_iff; simpl; tauto|]);
    (split; [reflexivity|]); (split; [reflexivity|]);
    (split;
     [ first [ apply new_lookup_played | apply new_lookup ];
       rewrite ?length_alter; reflexivity |]);
    (split; [reflexivity|]);
    split; intros Hx; try discriminate Hx; repeat split.
Qed.

(** The browser refuses to play the stored recording. *)
Lemma playback_and_visualizer_witness :
  activeId_is "1000-k3x9q" session_one && isPlaying session_one = false /\
  find_recording "1000-k3x9q" (recordings session_one) = Some recording_one
  /\
  error (onPlay (mkPlayEnv false false true 2%positive) "1000-k3x9q"
           session_one) = "Unable to play audio.".
Proof.
  assert (H1 : activeId_is "1000-k3x9q" session_one && isPlaying session_one
               = false) by (vm_compute; reflexivity).
  assert (H2 : find_recording "1000-k3x9q" (recordings session_one)
               = Some recording_one) by (vm_compute; reflexivity).
  split; [exact H1|]. split; [exact H2|].
  exact (proj1 (proj2 (proj2 (proj2 (proj2
    (playback_and_visualizer (mkPlayEnv false false true 2%positive)
       "1000-k3x9q" recording_one session_one H1 H2)))))).
Defined.
